(** * SyclPlatform: topology discovery and executor acquisition

    A shallow embedding of [xla/stream_executor/sycl/sycl_platform.cc].

    The C++ methods of [SyclPlatform] read and write three kinds of state:
    the fields of the platform object ([min_numa_node_], [limit_numa_node_],
    [executor_cache_]), the function-local [static absl::once_flag] of
    [InspectNumaNodes] (one per process, shared by all platform objects),
    and the device driver.  The embedding threads the first two explicitly
    and takes the driver as a record of functions.  A method either
    returns, or terminates the process (a failed [CHECK_LT], or [operator*]
    applied to a [StatusOr] that holds an error). *)

From stdpp Require Import gmap strings list pretty.

Open Scope Z_scope.

(** ** The C++ type [int] *)

Module Int.

Definition min_value : Z := -2147483648.
Definition max_value : Z := 2147483647.

(** Two's complement reduction of a mathematical integer to 32 bits. *)
Definition wrap (z : Z) : Z := (z + 2 ^ 31) `mod` 2 ^ 32 - 2 ^ 31.

Definition add (a b : Z) : Z := wrap (a + b).
Definition sub (a b : Z) : Z := wrap (a - b).

Definition in_range (z : Z) : Prop := min_value <= z <= max_value.

(** [std::min(a, b)] is [(b < a) ? b : a]; [std::max(a, b)] is
    [(a < b) ? b : a]. *)
Definition std_min (a b : Z) : Z := if b <? a then b else a.
Definition std_max (a b : Z) : Z := if a <? b then b else a.

End Int.

(** ** Statuses *)

Inductive StatusCode :=
| kOk | kCancelled | kUnknown | kInvalidArgument | kDeadlineExceeded
| kNotFound | kAlreadyExists | kPermissionDenied | kResourceExhausted
| kFailedPrecondition | kAborted | kOutOfRange | kUnimplemented
| kInternal | kUnavailable | kDataLoss | kUnauthenticated.

Record Status := MkStatus { code : StatusCode; message : string }.

Definition OkStatus : Status := MkStatus kOk "".

Definition ok (s : Status) : bool :=
  match code s with kOk => true | _ => false end.

Definition StatusCodeToString (c : StatusCode) : string :=
  match c with
  | kOk => "OK"
  | kCancelled => "CANCELLED"
  | kUnknown => "UNKNOWN"
  | kInvalidArgument => "INVALID_ARGUMENT"
  | kDeadlineExceeded => "DEADLINE_EXCEEDED"
  | kNotFound => "NOT_FOUND"
  | kAlreadyExists => "ALREADY_EXISTS"
  | kPermissionDenied => "PERMISSION_DENIED"
  | kResourceExhausted => "RESOURCE_EXHAUSTED"
  | kFailedPrecondition => "FAILED_PRECONDITION"
  | kAborted => "ABORTED"
  | kOutOfRange => "OUT_OF_RANGE"
  | kUnimplemented => "UNIMPLEMENTED"
  | kInternal => "INTERNAL"
  | kUnavailable => "UNAVAILABLE"
  | kDataLoss => "DATA_LOSS"
  | kUnauthenticated => "UNAUTHENTICATED"
  end.

(** [Status::ToString()] of a status without payloads. *)
Definition ToString (s : Status) : string :=
  if ok s then "OK" else StatusCodeToString (code s) +:+ ": " +:+ message s.

(** [tsl::StatusOr<T>]: a value or a non-OK status. *)
Inductive StatusOr (T : Type) :=
| Value (v : T)
| Error (s : Status).
Arguments Value {T} v.
Arguments Error {T} s.

(** ** Configurations, executors and the driver *)

(** Modelled from the spec: [DeviceOptions] is declared outside this
    repository's sources; the spec only names "default device options".
    It is a flag word, and [DefaultDeviceOptions] stands for
    [DeviceOptions::Default()]. *)
Record DeviceOptions := MkDeviceOptions { flags : Z }.

Definition DefaultDeviceOptions : DeviceOptions := MkDeviceOptions 0.

(** A [void*]; [nullptr] is address 0. *)
Definition pointer := Z.
Definition nullptr : pointer := 0.

(** The fields of [StreamExecutorConfig] that the platform reads or writes:
    [ordinal], [device_options] and [gpu_stream]. *)
Record StreamExecutorConfig := MkConfig {
  ordinal : Z;
  device_options : DeviceOptions;
  gpu_stream : pointer
}.

(** A [StreamExecutor] built by
    [std::make_unique<StreamExecutor>(this, std::make_unique<GpuExecutor>(),
    config.ordinal)] and initialised with [config.device_options].
    [serial] counts the executors the process constructed before this one
    and stands for the address of the object. *)
Record StreamExecutor := MkExecutor {
  device_ordinal : Z;
  init_options : DeviceOptions;
  serial : nat
}.

(** What the platform asks of the driver and of [GpuExecutor]:
    [GpuDriver::GetDeviceCount()], the status of
    [StreamExecutor::Init(device_options)] for a device ordinal, and
    [GetDeviceDescription().numa_node()] of an executor bound to a device
    ordinal. *)
Record Driver := MkDriver {
  GetDeviceCount : Z;
  Init : Z -> DeviceOptions -> Status;
  numa_node : Z -> Z
}.

#[global] Instance StatusCode_eq_dec : EqDecision StatusCode.
Proof. solve_decision. Defined.
#[global] Instance Status_eq_dec : EqDecision Status.
Proof. solve_decision. Defined.
#[global] Instance DeviceOptions_eq_dec : EqDecision DeviceOptions.
Proof. solve_decision. Defined.
#[global] Instance StreamExecutorConfig_eq_dec : EqDecision StreamExecutorConfig.
Proof. solve_decision. Defined.
#[global] Instance StreamExecutor_eq_dec : EqDecision StreamExecutor.
Proof. solve_decision. Defined.

#[global] Instance StreamExecutorConfig_countable : Countable StreamExecutorConfig.
Proof.
  refine (inj_countable'
            (fun c => (ordinal c, flags (device_options c), gpu_stream c))
            (fun t => MkConfig t.1.1 (MkDeviceOptions t.1.2) t.2) _).
  intros [o [f] g]; reflexivity.
Defined.

(** ** Process and platform state *)

(** The part of the process state the platform touches: the
    [static absl::once_flag once] of [InspectNumaNodes], the number of
    [StreamExecutor] objects constructed so far, and the device ordinals
    for which [Init] has been invoked, latest first. *)
Record Process := MkProcess {
  once : bool;
  constructed : nat;
  init_log : list Z
}.

Definition process_start : Process := MkProcess false 0 [].

(** The data members of a [SyclPlatform]. *)
Record SyclPlatform := MkPlatform {
  name_ : string;
  min_numa_node_ : Z;
  limit_numa_node_ : Z;
  executor_cache_ : gmap StreamExecutorConfig StreamExecutor
}.

(** [SyclPlatform::SyclPlatform()]. *)
Definition SyclPlatform_new : SyclPlatform := MkPlatform "SYCL" 0 0 ∅.

Record State := MkState { proc : Process; self : SyclPlatform }.

(** ** Method results *)

(** The two ways a method ends the process. *)
Inductive Fatal :=
| CheckFailed (msg : string)        (* a CHECK macro whose condition is false *)
| BadStatusOrAccess (s : Status).   (* operator* on a StatusOr holding an error *)

Inductive Outcome (A : Type) :=
| Returns (a : A) (s : State)
| Aborts (f : Fatal).
Arguments Returns {A} a s.
Arguments Aborts {A} f.

Definition M (A : Type) : Type := State -> Outcome A.

Definition ret {A} (a : A) : M A := fun s => Returns a s.

Definition bind {A B} (m : M A) (k : A -> M B) : M B :=
  fun s => match m s with
           | Returns a s' => k a s'
           | Aborts f => Aborts f
           end.

Definition abort {A} (f : Fatal) : M A := fun _ => Aborts f.

Declare Scope method_scope.
Delimit Scope method_scope with method.
Notation "x <- m ;; k" := (bind m (fun x => k))
  (at level 100, m at next level, right associativity) : method_scope.
Notation "m ;;; k" := (bind m (fun _ => k))
  (at level 100, right associativity) : method_scope.
Open Scope method_scope.

(** [*status_or]: the value, or a crash when the [StatusOr] is not OK. *)
Definition deref {A} (r : StatusOr A) : M A :=
  match r with
  | Value v => ret v
  | Error st => abort (BadStatusOrAccess st)
  end.

Definition get_min : M Z := fun s => Returns (min_numa_node_ (self s)) s.
Definition get_limit : M Z := fun s => Returns (limit_numa_node_ (self s)) s.

Definition set_min (v : Z) : M unit := fun s =>
  Returns tt (MkState (proc s)
    (MkPlatform (name_ (self s)) v (limit_numa_node_ (self s))
                (executor_cache_ (self s)))).

Definition set_limit (v : Z) : M unit := fun s =>
  Returns tt (MkState (proc s)
    (MkPlatform (name_ (self s)) (min_numa_node_ (self s)) v
                (executor_cache_ (self s)))).

Definition set_cache (c : gmap StreamExecutorConfig StreamExecutor) : M unit :=
  fun s =>
  Returns tt (MkState (proc s)
    (MkPlatform (name_ (self s)) (min_numa_node_ (self s))
                (limit_numa_node_ (self s)) c)).

Definition for_each {A} (body : A -> M unit) : list A -> M unit :=
  fix go l := match l with
              | [] => ret tt
              | x :: l' => body x ;;; go l'
              end.

(** ** The executor cache *)

(** Modelled from the spec: [ExecutorCache] ([executor_cache.h]) is not
    among the sources.  [Get] looks an entry up by exact key match and
    never creates; a miss is a [NotFound] status.  [GetOrCreate] returns
    the cached entry if there is one; otherwise it invokes the factory
    once and stores the result under the key; a failure of the factory is
    propagated and leaves the key absent. *)
Definition ExecutorCache_Get (config : StreamExecutorConfig)
  : M (StatusOr StreamExecutor) := fun s =>
  match executor_cache_ (self s) !! config with
  | Some e => Returns (Value e) s
  | None => Returns (Error (MkStatus kNotFound "executor not found in cache")) s
  end.

Definition ExecutorCache_GetOrCreate (config : StreamExecutorConfig)
    (factory : M (StatusOr StreamExecutor)) : M (StatusOr StreamExecutor) :=
  fun s =>
  match executor_cache_ (self s) !! config with
  | Some e => Returns (Value e) s
  | None =>
      (r <- factory ;;
       match r with
       | Value e =>
           (fun s' => set_cache (<[config := e]> (executor_cache_ (self s'))) s') ;;;
           ret (Value e)
       | Error st => ret (Error st)
       end) s
  end.

(** ** The methods of [SyclPlatform] *)

Definition VisibleDeviceCount (d : Driver) : Z := GetDeviceCount d.

(** [absl::StrFormat] with one [%d] and, for the first, one [%s]. *)
Definition init_failure_message (ord : Z) (init_status : Status) : string :=
  "failed initializing StreamExecutor for CUDA device ordinal "
  +:+ pretty ord +:+ ": " +:+ ToString init_status.

Definition bus_not_found_message (bus_ordinal : Z) : string :=
  "Executor for bus " +:+ pretty bus_ordinal +:+ " not found.".

Definition GetUncachedExecutor (d : Driver) (config : StreamExecutorConfig)
  : M (StatusOr StreamExecutor) := fun s =>
  let executor :=
    MkExecutor (ordinal config) (device_options config) (constructed (proc s)) in
  let init_status := Init d (ordinal config) (device_options config) in
  let s' := MkState (MkProcess (once (proc s)) (S (constructed (proc s)))
                               (ordinal config :: init_log (proc s)))
                    (self s) in
  if negb (ok init_status) then
    Returns (Error (MkStatus kInternal
                      (init_failure_message (ordinal config) init_status))) s'
  else Returns (Value executor) s'.

Definition GetExecutor (d : Driver) (config : StreamExecutorConfig)
  : M (StatusOr StreamExecutor) :=
  if negb (gpu_stream config =? nullptr) then ExecutorCache_Get config
  else ExecutorCache_GetOrCreate config (GetUncachedExecutor d config).

Definition ExecutorForDevice (d : Driver) (ord : Z) : M (StatusOr StreamExecutor) :=
  GetExecutor d (MkConfig ord DefaultDeviceOptions nullptr).

(** [exec->GetDeviceDescription().numa_node()]. *)
Definition executor_numa_node (d : Driver) (exec : StreamExecutor) : Z :=
  numa_node d (device_ordinal exec).

(** [absl::call_once(once, body)] on the process-wide flag: the body runs
    only while the flag is clear, and the flag is set when it returns. *)
Definition call_once (body : M unit) : M unit := fun s =>
  if once (proc s) then Returns tt s
  else match body s with
       | Returns _ s' =>
           Returns tt (MkState (MkProcess true (constructed (proc s'))
                                          (init_log (proc s')))
                               (self s'))
       | Aborts f => Aborts f
       end.

(** The ordinals visited by [for (int i = 0; i < VisibleDeviceCount(); i++)]. *)
Definition device_ordinals (d : Driver) : list Z := seqZ 0 (VisibleDeviceCount d).

(** One iteration of the loop of [InspectNumaNodes]. *)
Definition inspect_device (d : Driver) (i : Z) : M unit :=
  r <- ExecutorForDevice d i ;;
  exec <- deref r ;;
  if i =? 0 then
    set_min (executor_numa_node d exec) ;;;
    m <- get_min ;;
    set_limit (Int.add m 1)
  else
    m <- get_min ;;
    set_min (Int.std_min m (executor_numa_node d exec)) ;;;
    l <- get_limit ;;
    set_limit (Int.std_max l (Int.add (executor_numa_node d exec) 1)).

Definition InspectNumaNodes (d : Driver) : M unit :=
  call_once (for_each (inspect_device d) (device_ordinals d)).

Definition BusCount (d : Driver) : M Z :=
  InspectNumaNodes d ;;;
  l <- get_limit ;;
  m <- get_min ;;
  ret (Int.sub l m).

Definition DeviceToBus (d : Driver) (device_ordinal : Z) : M Z :=
  r <- ExecutorForDevice d device_ordinal ;;
  exec <- deref r ;;
  m <- get_min ;;
  ret (Int.sub (executor_numa_node d exec) m).

(** The loop of [FirstExecutorForBus] over the remaining ordinals. *)
Fixpoint first_on_bus (d : Driver) (bus_ordinal : Z) (ords : list Z)
  : M (StatusOr StreamExecutor) :=
  match ords with
  | [] => ret (Error (MkStatus kNotFound (bus_not_found_message bus_ordinal)))
  | i :: rest =>
      b <- DeviceToBus d i ;;
      if b =? bus_ordinal then
        r <- ExecutorForDevice d i ;;
        exec <- deref r ;;
        ret (Value exec)
      else first_on_bus d bus_ordinal rest
  end.

Definition FirstExecutorForBus (d : Driver) (bus_ordinal : Z)
  : M (StatusOr StreamExecutor) :=
  InspectNumaNodes d ;;;
  count <- BusCount d ;;
  if negb (bus_ordinal <? count) then
    abort (CheckFailed "bus ordinal out of available range")
  else first_on_bus d bus_ordinal (device_ordinals d).

(** A platform object freshly constructed in a process. *)
Definition fresh (p : Process) : State := MkState p SyclPlatform_new.

(** ** Example drivers *)

(** Every device initialises; bus ids are read from a list. *)
Definition driver_of_buses (buses : list Z) : Driver :=
  MkDriver (Z.of_nat (length buses))
           (fun _ _ => OkStatus)
           (fun i => default 0 (buses !! Z.to_nat i)).

(** As above, but [Init] fails on device [bad] with the given status. *)
Definition driver_failing_at (buses : list Z) (bad : Z) (st : Status) : Driver :=
  MkDriver (Z.of_nat (length buses))
           (fun i _ => if i =? bad then st else OkStatus)
           (fun i => default 0 (buses !! Z.to_nat i)).

(** ** Vocabulary of the statements *)

(** The cache key that [ExecutorForDevice] builds for an ordinal. *)
Definition device_key (i : Z) : StreamExecutorConfig :=
  MkConfig i DefaultDeviceOptions nullptr.

(** Every cached executor is bound to the ordinal of its key.  The empty
    cache has the property and every method keeps it. *)
Definition cache_wf (s : State) : Prop :=
  ∀ cfg e, executor_cache_ (self s) !! cfg = Some e → device_ordinal e = ordinal cfg.

(** [ExecutorForDevice(i)] can hand out an executor: one is cached, or
    initialising a new one succeeds. *)
Definition obtainable (d : Driver) (s : State) (i : Z) : Prop :=
  is_Some (executor_cache_ (self s) !! device_key i)
  ∨ ok (Init d i DefaultDeviceOptions) = true.

Definition all_obtainable (d : Driver) (s : State) : Prop :=
  ∀ i, 0 <= i < VisibleDeviceCount d → obtainable d s i.

(** The pair [{min_numa_node_, limit_numa_node_}]. *)
Definition topology (s : State) : Z * Z :=
  (min_numa_node_ (self s), limit_numa_node_ (self s)).

(** [s'] differs from [s] at most by executors added to the cache (and the
    construction counter and [Init] log that go with them). *)
Definition cache_grows (s s' : State) : Prop :=
  once (proc s') = once (proc s)
  ∧ name_ (self s') = name_ (self s)
  ∧ executor_cache_ (self s) ⊆ executor_cache_ (self s').

(** [lo] is the minimum, [hi] the maximum, of the bus ids of devices
    [0 .. k-1]. *)
Definition is_min_bus (d : Driver) (k lo : Z) : Prop :=
  (∃ i, 0 <= i < k ∧ numa_node d i = lo) ∧ ∀ i, 0 <= i < k → lo <= numa_node d i.

Definition is_max_bus (d : Driver) (k hi : Z) : Prop :=
  (∃ i, 0 <= i < k ∧ numa_node d i = hi) ∧ ∀ i, 0 <= i < k → numa_node d i <= hi.

(** The bus ids of the visible devices are [int] values for which
    [numa_node() + 1] and [limit - min] do not overflow. *)
Definition bus_ids_fit (d : Driver) : Prop :=
  ∀ i j, 0 <= i < VisibleDeviceCount d → 0 <= j < VisibleDeviceCount d →
    Int.min_value <= numa_node d i < Int.max_value
    ∧ numa_node d i - numa_node d j < Int.max_value.

(** What one loop iteration of [InspectNumaNodes] does to the pair. *)
Definition scan_step (d : Driver) (t : Z * Z) (i : Z) : Z * Z :=
  let b := numa_node d i in
  if i =? 0 then (b, Int.add b 1)
  else (Int.std_min t.1 b, Int.std_max t.2 (Int.add b 1)).

(** The operations of a platform object as a caller invokes them, results
    dropped. *)
Inductive Call :=
| CallInspectNumaNodes
| CallBusCount
| CallDeviceToBus (device_ordinal : Z)
| CallFirstExecutorForBus (bus_ordinal : Z)
| CallExecutorForDevice (ord : Z)
| CallGetExecutor (config : StreamExecutorConfig).

Definition perform (d : Driver) (c : Call) : M unit :=
  match c with
  | CallInspectNumaNodes => InspectNumaNodes d
  | CallBusCount => BusCount d ;;; ret tt
  | CallDeviceToBus i => DeviceToBus d i ;;; ret tt
  | CallFirstExecutorForBus b => FirstExecutorForBus d b ;;; ret tt
  | CallExecutorForDevice i => ExecutorForDevice d i ;;; ret tt
  | CallGetExecutor cfg => GetExecutor d cfg ;;; ret tt
  end.

Definition perform_all (d : Driver) (calls : list Call) : M unit :=
  for_each (perform d) calls.

(** A method maintains a property of the state when every returning run
    that starts in a state with the property ends in one. *)
Definition maintains {A} (P : State → Prop) (m : M A) : Prop :=
  ∀ s a s', P s → m s = Returns a s' → P s'.

(** The once-flag is [o] and the topology pair is [t]. *)
Definition pinned (o : bool) (t : Z * Z) (s : State) : Prop :=
  once (proc s) = o ∧ topology s = t.

(** The state in which [InspectNumaNodes] leaves the platform and the
    process when it returns. *)
Definition after_inspect (d : Driver) (s : State) : State :=
  match InspectNumaNodes d s with
  | Returns _ s' => s'
  | Aborts _ => s
  end.

(** The state after a run of calls that all return. *)
Definition after_calls (d : Driver) (calls : list Call) (s : State) : State :=
  match perform_all d calls s with
  | Returns _ s' => s'
  | Aborts _ => s
  end.

(** [SyclPlatform::Name()]. *)
Definition Name : M string := fun s => Returns (name_ (self s)) s.

(** [s] is [s0] after some work of the platform: the name is as it was, no
    cache entry was removed or replaced, a set once-flag is still set, the
    [Init] log was only extended, and every constructed executor had one
    [Init] invocation. *)
Definition evolves (s0 s : State) : Prop :=
  name_ (self s) = name_ (self s0)
  ∧ executor_cache_ (self s0) ⊆ executor_cache_ (self s)
  ∧ (once (proc s0) = true → once (proc s) = true)
  ∧ init_log (proc s0) `suffix_of` init_log (proc s)
  ∧ (constructed (proc s) + length (init_log (proc s0))
     = constructed (proc s0) + length (init_log (proc s)))%nat.

(** The ordinals of a list that have no executor in the cache of [s]. *)
Definition uncached (s : State) (ords : list Z) : list Z :=
  filter (λ i, executor_cache_ (self s) !! device_key i = None) ords.

(** ** Arithmetic of [int] *)

Lemma wrap_in_range z : Int.in_range z → Int.wrap z = z.
Proof.
  unfold Int.in_range, Int.min_value, Int.max_value, Int.wrap. intros Hz.
  rewrite Z.mod_small; lia.
Qed.

Lemma add_one_exact b :
  Int.min_value <= b < Int.max_value → Int.add b 1 = b + 1.
Proof.
  intros Hb. apply wrap_in_range. unfold Int.in_range, Int.min_value, Int.max_value in *. lia.
Qed.

Lemma std_min_is_min a b : Int.std_min a b = Z.min a b.
Proof. unfold Int.std_min. destruct (Z.ltb_spec b a); lia. Qed.

Lemma std_max_is_max a b : Int.std_max a b = Z.max a b.
Proof. unfold Int.std_max. destruct (Z.ltb_spec a b); lia. Qed.

(** ** The executor cache and [GetExecutor] *)

Lemma GetExecutor_stream d cfg s :
  gpu_stream cfg ≠ nullptr → GetExecutor d cfg s = ExecutorCache_Get cfg s.
Proof.
  intros Hs. unfold GetExecutor.
  destruct (Z.eqb_spec (gpu_stream cfg) nullptr); [contradiction|reflexivity].
Qed.

Lemma GetExecutor_no_stream d cfg s :
  gpu_stream cfg = nullptr →
  GetExecutor d cfg s = ExecutorCache_GetOrCreate cfg (GetUncachedExecutor d cfg) s.
Proof. intros Hs. unfold GetExecutor. rewrite Hs. reflexivity. Qed.

Lemma GetOrCreate_hit d cfg s e :
  executor_cache_ (self s) !! cfg = Some e →
  ExecutorCache_GetOrCreate cfg (GetUncachedExecutor d cfg) s = Returns (Value e) s.
Proof. intros H. unfold ExecutorCache_GetOrCreate. rewrite H. reflexivity. Qed.

Lemma GetOrCreate_created d cfg s :
  executor_cache_ (self s) !! cfg = None →
  ok (Init d (ordinal cfg) (device_options cfg)) = true →
  ExecutorCache_GetOrCreate cfg (GetUncachedExecutor d cfg) s =
  Returns (Value (MkExecutor (ordinal cfg) (device_options cfg) (constructed (proc s))))
    (MkState (MkProcess (once (proc s)) (S (constructed (proc s)))
                        (ordinal cfg :: init_log (proc s)))
             (MkPlatform (name_ (self s)) (min_numa_node_ (self s))
                (limit_numa_node_ (self s))
                (<[cfg := MkExecutor (ordinal cfg) (device_options cfg)
                                     (constructed (proc s))]>
                   (executor_cache_ (self s))))).
Proof.
  intros Hmiss Hok. unfold ExecutorCache_GetOrCreate. rewrite Hmiss.
  unfold bind, GetUncachedExecutor. rewrite Hok. reflexivity.
Qed.

Lemma GetOrCreate_failed d cfg s :
  executor_cache_ (self s) !! cfg = None →
  ok (Init d (ordinal cfg) (device_options cfg)) = false →
  ExecutorCache_GetOrCreate cfg (GetUncachedExecutor d cfg) s =
  Returns (Error (MkStatus kInternal
                    (init_failure_message (ordinal cfg)
                       (Init d (ordinal cfg) (device_options cfg)))))
    (MkState (MkProcess (once (proc s)) (S (constructed (proc s)))
                        (ordinal cfg :: init_log (proc s)))
             (self s)).
Proof.
  intros Hmiss Hok. unfold ExecutorCache_GetOrCreate. rewrite Hmiss.
  unfold bind, GetUncachedExecutor. rewrite Hok. reflexivity.
Qed.

Lemma ExecutorForDevice_unfold d i s :
  ExecutorForDevice d i s =
  ExecutorCache_GetOrCreate (device_key i) (GetUncachedExecutor d (device_key i)) s.
Proof. reflexivity. Qed.

(** When the executor is obtainable, [ExecutorForDevice] returns one bound
    to the ordinal, and touches nothing but the cache entry of its key. *)
Lemma ExecutorForDevice_obtainable d i s :
  cache_wf s → obtainable d s i →
  ∃ e s', ExecutorForDevice d i s = Returns (Value e) s'
          ∧ device_ordinal e = i
          ∧ executor_cache_ (self s') !! device_key i = Some e
          ∧ cache_wf s' ∧ cache_grows s s' ∧ topology s' = topology s
          ∧ ∀ cfg, cfg ≠ device_key i →
              executor_cache_ (self s') !! cfg = executor_cache_ (self s) !! cfg.
Proof.
  intros Hwf Hob. rewrite ExecutorForDevice_unfold.
  destruct (executor_cache_ (self s) !! device_key i) as [e|] eqn:Hc.
  - exists e, s. rewrite (GetOrCreate_hit _ _ _ _ Hc).
    repeat split; auto. apply (Hwf _ _ Hc).
  - destruct Hob as [[e He]|Hok]; [congruence|].
    rewrite (GetOrCreate_created _ _ _ Hc Hok). simpl.
    eexists _, _. split; [reflexivity|]. simpl.
    split; [reflexivity|]. split; [apply lookup_insert_eq|].
    split; [|split; [|split; [reflexivity|]]].
    + intros cfg e. unfold cache_wf in Hwf. simpl.
      rewrite lookup_insert. case_decide as Heq.
      * intros [= <-]. subst cfg. reflexivity.
      * apply Hwf.
    + repeat split; simpl; auto. by apply insert_subseteq.
    + intros cfg Hne. by apply lookup_insert_ne.
Qed.

Lemma obtainable_grows d s s' i :
  cache_grows s s' → obtainable d s i → obtainable d s' i.
Proof.
  intros (_ & _ & Hsub) [[e He]|Hok]; [left|by right].
  exists e. by eapply lookup_weaken.
Qed.

Lemma cache_grows_refl s : cache_grows s s.
Proof. by repeat split. Qed.

Lemma cache_grows_trans s1 s2 s3 :
  cache_grows s1 s2 → cache_grows s2 s3 → cache_grows s1 s3.
Proof.
  intros (? & ? & ?) (? & ? & ?). repeat split; [congruence..|].
  by etrans.
Qed.

Lemma cache_wf_fresh p : cache_wf (fresh p).
Proof. intros cfg e. simpl. by rewrite lookup_empty. Qed.

Lemma all_obtainable_init_ok d s :
  (∀ i, 0 <= i < VisibleDeviceCount d → ok (Init d i DefaultDeviceOptions) = true) →
  all_obtainable d s.
Proof. intros H i Hi. right. by apply H. Qed.

Lemma bus_ids_fit_small d :
  (∀ i, 0 <= i < VisibleDeviceCount d → -1000000000 <= numa_node d i <= 1000000000) →
  bus_ids_fit d.
Proof.
  intros H i j Hi Hj. pose proof (H i Hi) as Hbi. pose proof (H j Hj) as Hbj.
  unfold Int.min_value, Int.max_value. lia.
Qed.

(** ** The scan of [InspectNumaNodes] *)

(** One iteration on an obtainable device. *)
Lemma inspect_device_returns d i s :
  cache_wf s → obtainable d s i →
  ∃ s', inspect_device d i s = Returns tt s'
        ∧ cache_wf s' ∧ cache_grows s s'
        ∧ is_Some (executor_cache_ (self s') !! device_key i)
        ∧ topology s' = scan_step d (topology s) i
        ∧ ∀ cfg, cfg ≠ device_key i →
            executor_cache_ (self s') !! cfg = executor_cache_ (self s) !! cfg.
Proof.
  intros Hwf Hob.
  destruct (ExecutorForDevice_obtainable d i s Hwf Hob)
    as (e & s1 & Hrun & Hord & Hin & Hwf1 & Hgr & Htop & Hother).
  unfold inspect_device, bind. rewrite Hrun. simpl.
  unfold executor_numa_node. rewrite Hord.
  injection Htop as Hmin Hlim.
  unfold scan_step, topology. simpl.
  destruct (i =? 0); simpl; eexists; (split; [reflexivity|]);
    simpl; rewrite ?Hmin, ?Hlim;
    (split; [exact Hwf1|]); (split; [exact Hgr|]);
    (split; [by exists e|]); (split; [reflexivity|exact Hother]).
Qed.

(** The loop over any list of obtainable devices returns, and folds
    [scan_step] over the list. *)
Lemma scan_loop_returns d ords : ∀ s,
  cache_wf s → (∀ i, i ∈ ords → obtainable d s i) →
  ∃ s', for_each (inspect_device d) ords s = Returns tt s'
        ∧ cache_wf s' ∧ cache_grows s s'
        ∧ (∀ i, i ∈ ords → is_Some (executor_cache_ (self s') !! device_key i))
        ∧ topology s' = foldl (scan_step d) (topology s) ords.
Proof.
  induction ords as [|i ords IH]; intros s Hwf Hob.
  - exists s. split; [reflexivity|]. split; [exact Hwf|].
    split; [apply cache_grows_refl|]. split; [|reflexivity].
    intros i Hi. inversion Hi.
  - destruct (inspect_device_returns d i s Hwf)
      as (s1 & Hrun & Hwf1 & Hgr1 & Hin1 & Htop1 & _).
    { apply Hob. left. }
    destruct (IH s1 Hwf1) as (s2 & Hrun2 & Hwf2 & Hgr2 & Hin2 & Htop2).
    { intros j Hj. eapply obtainable_grows; [exact Hgr1|]. apply Hob. by right. }
    exists s2. simpl. unfold bind. rewrite Hrun. rewrite Hrun2.
    split; [reflexivity|]. split; [exact Hwf2|].
    split; [eapply cache_grows_trans; eauto|]. split.
    + intros j Hj. apply elem_of_cons in Hj as [->|Hj]; [|by apply Hin2].
      destruct Hin1 as [e He]. exists e.
      destruct Hgr2 as (_ & _ & Hsub). by eapply lookup_weaken.
    + by rewrite Htop2, Htop1.
Qed.

(** The loop stops at the first device whose executor cannot be obtained. *)
Lemma scan_loop_aborts d pre k post : ∀ s,
  cache_wf s → (∀ i, i ∈ pre → obtainable d s i) →
  k ∉ pre →
  executor_cache_ (self s) !! device_key k = None →
  ok (Init d k DefaultDeviceOptions) = false →
  for_each (inspect_device d) (pre ++ k :: post) s =
  Aborts (BadStatusOrAccess
            (MkStatus kInternal
               (init_failure_message k (Init d k DefaultDeviceOptions)))).
Proof.
  induction pre as [|i pre IH]; intros s Hwf Hob Hk Hmiss Hfail.
  - simpl. unfold bind at 1. unfold inspect_device, bind.
    rewrite ExecutorForDevice_unfold.
    rewrite (GetOrCreate_failed d (device_key k) s Hmiss Hfail). reflexivity.
  - destruct (inspect_device_returns d i s Hwf)
      as (s1 & Hrun & Hwf1 & Hgr1 & Hin1 & Htop1 & Hother).
    { apply Hob. left. }
    simpl. unfold bind at 1. rewrite Hrun.
    apply IH; auto.
    + intros j Hj. eapply obtainable_grows; [exact Hgr1|]. apply Hob. by right.
    + intros Hin. apply Hk. by right.
    + rewrite Hother; [exact Hmiss|].
      intros [= Heq]. apply Hk. subst. left.
Qed.

(** The fold of [scan_step] over [0 .. m] computes the minimum and one past
    the maximum of the bus ids, whatever the pair it starts from. *)
Lemma scan_fold d t (m : nat) :
  (∀ i, 0 <= i <= Z.of_nat m → Int.min_value <= numa_node d i < Int.max_value) →
  ∃ lo hi, foldl (scan_step d) t (seqZ 0 (Z.of_nat (S m))) = (lo, hi + 1)
           ∧ is_min_bus d (Z.of_nat (S m)) lo ∧ is_max_bus d (Z.of_nat (S m)) hi.
Proof.
  induction m as [|m IH]; intros Hfit.
  - exists (numa_node d 0), (numa_node d 0). split; [|split].
    + simpl. unfold scan_step. simpl. rewrite add_one_exact; [reflexivity|].
      apply Hfit. lia.
    + split; [exists 0; lia|]. intros i Hi. replace i with 0 by lia. lia.
    + split; [exists 0; lia|]. intros i Hi. replace i with 0 by lia. lia.
  - destruct IH as (lo & hi & Hf & [[il [Hil Hlo]] Hlo'] & [[ih [Hih Hhi]] Hhi']).
    { intros i Hi. apply Hfit. lia. }
    rewrite seqZ_S, foldl_snoc, Hf. simpl.
    set (k := Z.of_nat (S m)).
    assert (Hk : Int.min_value <= numa_node d k < Int.max_value)
      by (apply Hfit; lia).
    unfold scan_step. replace (0 + k) with k by lia.
    destruct (Z.eqb_spec k 0) as [Hk0|_]; [lia|]. simpl.
    rewrite std_min_is_min, std_max_is_max, (add_one_exact _ Hk).
    exists (Z.min lo (numa_node d k)), (Z.max hi (numa_node d k)).
    split; [f_equal; lia|]. split.
    + split.
      * destruct (Z.le_ge_cases lo (numa_node d k)).
        -- exists il. split; [lia|]. lia.
        -- exists k. split; [lia|]. lia.
      * intros i Hi. destruct (Z.eq_dec i k) as [->|Hne]; [lia|].
        specialize (Hlo' i). lia.
    + split.
      * destruct (Z.le_ge_cases (numa_node d k) hi).
        -- exists ih. split; [lia|]. lia.
        -- exists k. split; [lia|]. lia.
      * intros i Hi. destruct (Z.eq_dec i k) as [->|Hne]; [lia|].
        specialize (Hhi' i). lia.
Qed.

(** ** [InspectNumaNodes], [BusCount] and [DeviceToBus] *)

Lemma InspectNumaNodes_done d s :
  once (proc s) = true → InspectNumaNodes d s = Returns tt s.
Proof. intros H. unfold InspectNumaNodes, call_once. by rewrite H. Qed.

Lemma InspectNumaNodes_sets_once d s s' :
  InspectNumaNodes d s = Returns tt s' → once (proc s') = true.
Proof.
  unfold InspectNumaNodes, call_once.
  destruct (once (proc s)) eqn:Ho.
  - by intros [= <-].
  - destruct (for_each _ _ s); [|discriminate]. by intros [= <-].
Qed.

Lemma BusCount_done d s :
  once (proc s) = true →
  BusCount d s =
  Returns (Int.sub (limit_numa_node_ (self s)) (min_numa_node_ (self s))) s.
Proof. intros H. unfold BusCount, bind. by rewrite (InspectNumaNodes_done d s H). Qed.

Lemma BusCount_after_inspect d s s' :
  InspectNumaNodes d s = Returns tt s' →
  BusCount d s =
  Returns (Int.sub (limit_numa_node_ (self s')) (min_numa_node_ (self s'))) s'.
Proof. intros H. unfold BusCount, bind. by rewrite H. Qed.

(** The first call in a process scans every device. *)
Lemma InspectNumaNodes_scan d s :
  once (proc s) = false → cache_wf s → all_obtainable d s →
  ∃ s', InspectNumaNodes d s = Returns tt s'
        ∧ once (proc s') = true ∧ cache_wf s'
        ∧ executor_cache_ (self s) ⊆ executor_cache_ (self s')
        ∧ (∀ i, 0 <= i < VisibleDeviceCount d →
             is_Some (executor_cache_ (self s') !! device_key i))
        ∧ topology s' = foldl (scan_step d) (topology s) (device_ordinals d).
Proof.
  intros Honce Hwf Hall.
  destruct (scan_loop_returns d (device_ordinals d) s Hwf)
    as (s1 & Hrun & Hwf1 & (_ & _ & Hsub) & Hin & Htop).
  { intros i Hi. apply Hall. unfold device_ordinals in Hi.
    apply elem_of_seqZ in Hi. lia. }
  unfold InspectNumaNodes, call_once. rewrite Honce, Hrun.
  eexists. split; [reflexivity|]. simpl.
  split; [reflexivity|]. split; [exact Hwf1|]. split; [exact Hsub|].
  split; [|exact Htop].
  intros i Hi. apply Hin. unfold device_ordinals. apply elem_of_seqZ. lia.
Qed.

Lemma DeviceToBus_obtainable d i s :
  cache_wf s → obtainable d s i →
  ∃ s', DeviceToBus d i s =
          Returns (Int.sub (numa_node d i) (min_numa_node_ (self s))) s'
        ∧ cache_wf s' ∧ cache_grows s s' ∧ topology s' = topology s
        ∧ is_Some (executor_cache_ (self s') !! device_key i).
Proof.
  intros Hwf Hob.
  destruct (ExecutorForDevice_obtainable d i s Hwf Hob)
    as (e & s1 & Hrun & Hord & Hin & Hwf1 & Hgr & Htop & _).
  exists s1. unfold DeviceToBus, bind. rewrite Hrun. simpl.
  unfold executor_numa_node. rewrite Hord.
  injection Htop as Hmin Hlim. rewrite Hmin.
  split; [reflexivity|]. split; [exact Hwf1|]. split; [exact Hgr|].
  split; [unfold topology; congruence|by exists e].
Qed.

Lemma DeviceToBus_cached d i s :
  cache_wf s → is_Some (executor_cache_ (self s) !! device_key i) →
  DeviceToBus d i s =
  Returns (Int.sub (numa_node d i) (min_numa_node_ (self s))) s.
Proof.
  intros Hwf [e He]. unfold DeviceToBus, bind.
  rewrite ExecutorForDevice_unfold, (GetOrCreate_hit _ _ _ _ He). simpl.
  unfold executor_numa_node. by rewrite (Hwf _ _ He).
Qed.

(** The scan over a non-empty population, in arithmetic terms. *)
Lemma scan_topology d t :
  0 < VisibleDeviceCount d → bus_ids_fit d →
  ∃ lo hi, foldl (scan_step d) t (device_ordinals d) = (lo, hi + 1)
           ∧ is_min_bus d (VisibleDeviceCount d) lo
           ∧ is_max_bus d (VisibleDeviceCount d) hi
           ∧ Int.sub (hi + 1) lo = hi - lo + 1
           ∧ ∀ i, 0 <= i < VisibleDeviceCount d →
               Int.sub (numa_node d i) lo = numa_node d i - lo.
Proof.
  intros Hn Hfit. unfold device_ordinals.
  set (n := VisibleDeviceCount d) in *.
  destruct (Z.to_nat n) as [|m] eqn:Hm; [lia|].
  assert (Hnm : Z.of_nat (S m) = n) by lia.
  destruct (scan_fold d t m) as (lo & hi & Hf & Hlo & Hhi).
  { intros i Hi. apply (Hfit i i); lia. }
  rewrite Hnm in Hf, Hlo, Hhi.
  exists lo, hi. split; [exact Hf|]. split; [exact Hlo|]. split; [exact Hhi|].
  destruct Hlo as [(il & Hil & Hlo) Hlo'], Hhi as [(ih & Hih & Hhi) Hhi'].
  split.
  - unfold Int.sub. rewrite wrap_in_range; [lia|].
    pose proof (Hfit ih il Hih Hil) as [? ?]. specialize (Hlo' ih Hih).
    unfold Int.in_range, Int.min_value, Int.max_value in *. lia.
  - intros i Hi. apply wrap_in_range.
    pose proof (Hfit i il Hi Hil) as [? ?]. specialize (Hlo' i Hi).
    unfold Int.in_range, Int.min_value, Int.max_value in *. lia.
Qed.

(** C1.  When the topology scan runs (first call of [InspectNumaNodes] in
    the process, on a platform whose pair still holds the constructor's
    zeros, every device obtainable, bus ids within the range where [int]
    arithmetic is exact): with no visible device the pair stays (0, 0) and
    [BusCount()] returns 0; with n > 0 devices [min_numa_node_] is the
    minimum bus id, [limit_numa_node_] is the maximum bus id plus one, and
    [BusCount()] returns max - min + 1. *)
Theorem topology_scan_result d s :
  once (proc s) = false → topology s = (0, 0) →
  cache_wf s → all_obtainable d s → bus_ids_fit d →
  ∃ s' count,
    InspectNumaNodes d s = Returns tt s'
    ∧ BusCount d s = Returns count s'
    ∧ (VisibleDeviceCount d = 0 →
         min_numa_node_ (self s') = 0 ∧ limit_numa_node_ (self s') = 0
         ∧ count = 0)
    ∧ (0 < VisibleDeviceCount d →
         ∃ lo hi, is_min_bus d (VisibleDeviceCount d) lo
                  ∧ is_max_bus d (VisibleDeviceCount d) hi
                  ∧ min_numa_node_ (self s') = lo
                  ∧ limit_numa_node_ (self s') = hi + 1
                  ∧ count = hi - lo + 1).
Proof.
  intros Honce Hzero Hwf Hall Hfit.
  destruct (InspectNumaNodes_scan d s Honce Hwf Hall)
    as (s' & Hrun & _ & _ & _ & _ & Htop).
  exists s', (Int.sub (limit_numa_node_ (self s')) (min_numa_node_ (self s'))).
  split; [exact Hrun|]. split; [by apply BusCount_after_inspect|]. split.
  - intros Hn. unfold device_ordinals in Htop. rewrite Hn in Htop.
    simpl in Htop. rewrite Hzero in Htop. injection Htop as -> ->. done.
  - intros Hn.
    destruct (scan_topology d (topology s) Hn Hfit)
      as (lo & hi & Hf & Hlo & Hhi & Hcount & _).
    rewrite Hf in Htop. injection Htop as Hmin Hlim.
    exists lo, hi. rewrite Hmin, Hlim. done.
Qed.

(** C2.  After topology discovery, for every valid device ordinal [i],
    [DeviceToBus(i)] returns the bus id of device [i] minus the minimum
    bus id over all visible devices, which is
    [numa_node(i) - min_numa_node_]. *)
Theorem DeviceToBus_after_discovery d s s' i :
  once (proc s) = false → cache_wf s → all_obtainable d s → bus_ids_fit d →
  InspectNumaNodes d s = Returns tt s' →
  0 <= i < VisibleDeviceCount d →
  ∃ lo, is_min_bus d (VisibleDeviceCount d) lo
        ∧ min_numa_node_ (self s') = lo
        ∧ DeviceToBus d i s' = Returns (numa_node d i - lo) s'.
Proof.
  intros Honce Hwf Hall Hfit Hrun Hi.
  destruct (InspectNumaNodes_scan d s Honce Hwf Hall)
    as (s1 & Hrun1 & _ & Hwf1 & _ & Hin & Htop).
  rewrite Hrun in Hrun1. injection Hrun1 as <-.
  assert (Hn : 0 < VisibleDeviceCount d) by lia.
  destruct (scan_topology d (topology s) Hn Hfit)
    as (lo & hi & Hf & Hlo & _ & _ & Hsub).
  rewrite Hf in Htop. injection Htop as Hmin Hlim.
  exists lo. split; [exact Hlo|]. split; [exact Hmin|].
  rewrite (DeviceToBus_cached d i s' Hwf1 (Hin i Hi)), Hmin.
  by rewrite (Hsub i Hi).
Qed.

(** ** [FirstExecutorForBus] *)

Lemma BusCount_returns_inv d s count s1 :
  BusCount d s = Returns count s1 →
  InspectNumaNodes d s = Returns tt s1
  ∧ once (proc s1) = true
  ∧ count = Int.sub (limit_numa_node_ (self s1)) (min_numa_node_ (self s1)).
Proof.
  unfold BusCount, bind. destruct (InspectNumaNodes d s) as [[] s0|f] eqn:Hi;
    [|discriminate].
  simpl. unfold ret. intros [= <- <-].
  split; [reflexivity|]. split; [|reflexivity].
  by eapply InspectNumaNodes_sets_once.
Qed.

Lemma FirstExecutorForBus_unfold d bus s count s1 :
  BusCount d s = Returns count s1 →
  FirstExecutorForBus d bus s =
  if bus <? count then first_on_bus d bus (device_ordinals d) s1
  else Aborts (CheckFailed "bus ordinal out of available range").
Proof.
  intros Hbc. destruct (BusCount_returns_inv _ _ _ _ Hbc) as (Hi & Honce & ->).
  unfold FirstExecutorForBus. unfold bind at 1. rewrite Hi.
  unfold bind at 1. rewrite (BusCount_done d s1 Honce).
  by destruct (_ <? _).
Qed.

(** Wherever [InspectNumaNodes] returns, it leaves a well-formed cache in
    which every device that was obtainable still is. *)
Lemma InspectNumaNodes_keeps d s s1 :
  cache_wf s → all_obtainable d s →
  InspectNumaNodes d s = Returns tt s1 →
  cache_wf s1 ∧ all_obtainable d s1.
Proof.
  intros Hwf Hall Hrun. destruct (once (proc s)) eqn:Honce.
  - rewrite (InspectNumaNodes_done d s Honce) in Hrun. by injection Hrun as <-.
  - destruct (InspectNumaNodes_scan d s Honce Hwf Hall)
      as (s' & Hrun' & _ & Hwf' & _ & Hin & _).
    rewrite Hrun in Hrun'. injection Hrun' as <-.
    split; [exact Hwf'|]. intros i Hi. left. by apply Hin.
Qed.

(** The search loop over the ordinals [a .. a+len-1]. *)
Lemma first_on_bus_range d bus (len : nat) : ∀ a s,
  cache_wf s → (∀ i, a <= i < a + Z.of_nat len → obtainable d s i) →
  ∃ r s', first_on_bus d bus (seqZ a (Z.of_nat len)) s = Returns r s'
    ∧ cache_wf s' ∧ cache_grows s s' ∧ topology s' = topology s
    ∧ ((∃ k e, a <= k < a + Z.of_nat len
               ∧ r = Value e ∧ device_ordinal e = k
               ∧ executor_cache_ (self s') !! device_key k = Some e
               ∧ Int.sub (numa_node d k) (min_numa_node_ (self s)) = bus
               ∧ ∀ j, a <= j < k →
                   is_Some (executor_cache_ (self s') !! device_key j)
                   ∧ Int.sub (numa_node d j) (min_numa_node_ (self s)) ≠ bus)
       ∨ (r = Error (MkStatus kNotFound (bus_not_found_message bus))
          ∧ ∀ j, a <= j < a + Z.of_nat len →
              is_Some (executor_cache_ (self s') !! device_key j)
              ∧ Int.sub (numa_node d j) (min_numa_node_ (self s)) ≠ bus)).
Proof.
  induction len as [|len IH]; intros a s Hwf Hob.
  - exists (Error (MkStatus kNotFound (bus_not_found_message bus))), s.
    split; [reflexivity|]. split; [exact Hwf|]. split; [apply cache_grows_refl|].
    split; [reflexivity|]. right. split; [reflexivity|]. intros j Hj. lia.
  - rewrite seqZ_cons by lia.
    replace (Z.pred (Z.of_nat (S len))) with (Z.of_nat len) by lia.
    replace (Z.succ a) with (a + 1) by lia.
    destruct (DeviceToBus_obtainable d a s Hwf) as (s1 & Hrun & Hwf1 & Hgr1 & Htop1 & Hin1).
    { apply Hob. lia. }
    simpl. unfold bind at 1. rewrite Hrun.
    assert (Hmin1 : min_numa_node_ (self s1) = min_numa_node_ (self s))
      by (by injection Htop1).
    destruct (Z.eqb_spec (Int.sub (numa_node d a) (min_numa_node_ (self s))) bus)
      as [Heq|Hne].
    + destruct Hin1 as [e He].
      exists (Value e), s1. unfold bind.
      rewrite ExecutorForDevice_unfold, (GetOrCreate_hit _ _ _ _ He). simpl.
      split; [reflexivity|]. split; [exact Hwf1|]. split; [exact Hgr1|].
      split; [exact Htop1|]. left. exists a, e.
      split; [lia|]. split; [reflexivity|]. split; [apply (Hwf1 _ _ He)|].
      split; [exact He|]. split; [exact Heq|]. intros j Hj. lia.
    + destruct (IH (a + 1) s1 Hwf1) as (r & s2 & Hrun2 & Hwf2 & Hgr2 & Htop2 & Hres).
      { intros i Hi. eapply obtainable_grows; [exact Hgr1|]. apply Hob. lia. }
      exists r, s2. split; [exact Hrun2|]. split; [exact Hwf2|].
      split; [eapply cache_grows_trans; eauto|]. split; [congruence|].
      assert (Ha : is_Some (executor_cache_ (self s2) !! device_key a)).
      { destruct Hin1 as [e He]. exists e.
        destruct Hgr2 as (_ & _ & Hsub). by eapply lookup_weaken. }
      rewrite Hmin1 in Hres.
      destruct Hres as [(k & e & Hk & Hr & Hord & Hc & Hbus & Hbefore)|[Hr Hall]].
      * left. exists k, e. split; [lia|]. do 4 (split; [assumption|]).
        intros j Hj. destruct (Z.eq_dec j a) as [->|Hja]; [by split|].
        apply Hbefore. lia.
      * right. split; [exact Hr|]. intros j Hj.
        destruct (Z.eq_dec j a) as [->|Hja]; [by split|]. apply Hall. lia.
Qed.

(** C3.  For every bus ordinal in [0, BusCount()),
    [FirstExecutorForBus(bus)] returns the executor of the smallest device
    ordinal whose [DeviceToBus] equals [bus] when there is one, and a
    [NotFound] status when no visible device maps to that bus; with three
    devices on buses [2; 0; 0], [FirstExecutorForBus(0)] returns the
    executor of device ordinal 1. *)
Theorem FirstExecutorForBus_in_range :
  (∀ d s s1 count bus,
     cache_wf s → all_obtainable d s →
     BusCount d s = Returns count s1 →
     0 <= bus < count →
     ∃ r s', FirstExecutorForBus d bus s = Returns r s'
       ∧ ((∃ k e, 0 <= k < VisibleDeviceCount d
                  ∧ r = Value e ∧ device_ordinal e = k
                  ∧ ExecutorForDevice d k s' = Returns (Value e) s'
                  ∧ DeviceToBus d k s' = Returns bus s'
                  ∧ ∀ j, 0 <= j < k →
                      ∃ b, DeviceToBus d j s' = Returns b s' ∧ b ≠ bus)
          ∨ (∃ st, r = Error st ∧ code st = kNotFound
                   ∧ ∀ j, 0 <= j < VisibleDeviceCount d →
                       ∃ b, DeviceToBus d j s' = Returns b s' ∧ b ≠ bus)))
  ∧ (∃ s', FirstExecutorForBus (driver_of_buses [2; 0; 0]) 0 (fresh process_start)
           = Returns (Value (MkExecutor 1 DefaultDeviceOptions 1)) s'
           ∧ ExecutorForDevice (driver_of_buses [2; 0; 0]) 1 s'
             = Returns (Value (MkExecutor 1 DefaultDeviceOptions 1)) s').
Proof.
  split.
  - intros d s s1 count bus Hwf Hall Hbc Hbus.
    rewrite (FirstExecutorForBus_unfold d bus s count s1 Hbc).
    destruct (Z.ltb_spec bus count) as [_|?]; [|lia].
    destruct (BusCount_returns_inv _ _ _ _ Hbc) as (Hi & _ & _).
    destruct (InspectNumaNodes_keeps d s s1 Hwf Hall Hi) as [Hwf1 Hall1].
    unfold device_ordinals.
    destruct (Z.le_gt_cases (VisibleDeviceCount d) 0) as [Hn|Hn].
    + rewrite seqZ_nil by lia. eexists _, _. split; [reflexivity|].
      right. eexists. split; [reflexivity|]. split; [reflexivity|]. intros j Hj. lia.
    + destruct (first_on_bus_range d bus (Z.to_nat (VisibleDeviceCount d)) 0 s1 Hwf1)
        as (r & s' & Hrun & Hwf' & Hgr & Htop & Hres).
      { intros i Hi'. apply Hall1. lia. }
      rewrite Z2Nat.id in Hrun, Hres by lia.
      exists r, s'. split; [exact Hrun|].
      assert (Hmin : min_numa_node_ (self s') = min_numa_node_ (self s1))
        by (by injection Htop).
      destruct Hres as [(k & e & Hk & Hr & Hord & Hc & Hb & Hbefore)|[Hr Hnone]].
      * left. exists k, e. split; [lia|]. split; [exact Hr|]. split; [exact Hord|].
        split; [by rewrite ExecutorForDevice_unfold, (GetOrCreate_hit _ _ _ _ Hc)|].
        split.
        -- rewrite DeviceToBus_cached; [|exact Hwf'|by exists e].
           by rewrite Hmin, Hb.
        -- intros j Hj. destruct (Hbefore j Hj) as [Hin Hne].
           eexists. split; [by apply DeviceToBus_cached|]. by rewrite Hmin.
      * right. eexists. split; [exact Hr|]. split; [reflexivity|].
        intros j Hj. destruct (Hnone j ltac:(lia)) as [Hin Hne].
        eexists. split; [by apply DeviceToBus_cached|]. by rewrite Hmin.
  - eexists. split; vm_compute; reflexivity.
Qed.

(** C4.  For every bus ordinal greater than or equal to [BusCount()],
    [FirstExecutorForBus(bus)] ends in the fatal failure of its
    [CHECK_LT]; it returns no value and no status. *)
Theorem FirstExecutorForBus_out_of_range d s s1 count bus :
  BusCount d s = Returns count s1 →
  count <= bus →
  FirstExecutorForBus d bus s =
    Aborts (CheckFailed "bus ordinal out of available range")
  ∧ ∀ r s', FirstExecutorForBus d bus s ≠ Returns r s'.
Proof.
  intros Hbc Hbus.
  rewrite (FirstExecutorForBus_unfold d bus s count s1 Hbc).
  destruct (Z.ltb_spec bus count) as [?|_]; [lia|].
  split; [reflexivity|]. intros r s'. discriminate.
Qed.

(** ** Executor acquisition *)

(** C5.  [GetExecutor(config)] dispatches on the stream handle of the
    config.  With a handle it is the cache's [Get] and nothing else: the
    state is left as it was (no executor constructed, [Init] not invoked,
    cache unchanged) and a miss is a [NotFound] status.  Without a handle
    it is [GetOrCreate] with [GetUncachedExecutor(config)] as factory: on
    a miss one executor is constructed and initialised, and, when [Init]
    succeeds, stored under the config and returned. *)
Theorem GetExecutor_dispatch d cfg s :
  (gpu_stream cfg ≠ nullptr →
     GetExecutor d cfg s = ExecutorCache_Get cfg s
     ∧ ∃ r, GetExecutor d cfg s = Returns r s
            ∧ (executor_cache_ (self s) !! cfg = None →
                 ∃ st, r = Error st ∧ code st = kNotFound)
            ∧ (∀ e, executor_cache_ (self s) !! cfg = Some e → r = Value e))
  ∧ (gpu_stream cfg = nullptr →
     GetExecutor d cfg s
       = ExecutorCache_GetOrCreate cfg (GetUncachedExecutor d cfg) s
     ∧ (∀ e, executor_cache_ (self s) !! cfg = Some e →
          GetExecutor d cfg s = Returns (Value e) s)
     ∧ (executor_cache_ (self s) !! cfg = None →
          ∃ r s', GetExecutor d cfg s = Returns r s'
            ∧ constructed (proc s') = S (constructed (proc s))
            ∧ init_log (proc s') = ordinal cfg :: init_log (proc s)
            ∧ (ok (Init d (ordinal cfg) (device_options cfg)) = true →
                 r = Value (MkExecutor (ordinal cfg) (device_options cfg)
                                       (constructed (proc s)))
                 ∧ executor_cache_ (self s') !! cfg
                   = Some (MkExecutor (ordinal cfg) (device_options cfg)
                                      (constructed (proc s)))))).
Proof.
  split; intros Hs.
  - rewrite (GetExecutor_stream d cfg s Hs). split; [reflexivity|].
    unfold ExecutorCache_Get.
    destruct (executor_cache_ (self s) !! cfg) as [e|].
    + exists (Value e). split; [reflexivity|]. split; [discriminate|].
      by intros e' [= <-].
    + eexists. split; [reflexivity|]. split; [|discriminate].
      intros _. eexists. by split.
  - rewrite (GetExecutor_no_stream d cfg s Hs). split; [reflexivity|]. split.
    + intros e He. by apply GetOrCreate_hit.
    + intros Hmiss.
      destruct (ok (Init d (ordinal cfg) (device_options cfg))) eqn:Hok.
      * rewrite (GetOrCreate_created d cfg s Hmiss Hok).
        eexists _, _. split; [reflexivity|]. simpl.
        split; [reflexivity|]. split; [reflexivity|]. intros _.
        split; [reflexivity|]. apply lookup_insert_eq.
      * rewrite (GetOrCreate_failed d cfg s Hmiss Hok).
        eexists _, _. split; [reflexivity|]. simpl.
        split; [reflexivity|]. split; [reflexivity|]. discriminate.
Qed.

(** C6.  When initialising the executor of a config fails,
    [GetUncachedExecutor] returns an [Internal] status whose message holds
    the device ordinal and the text of the driver's status; on a cache
    miss [GetOrCreate], [GetExecutor] (config without stream handle) and
    [ExecutorForDevice] return that same status to their caller, after a
    single [Init] attempt, and leave the cache without the key. *)
Theorem init_failure_propagates d cfg s :
  ok (Init d (ordinal cfg) (device_options cfg)) = false →
  ∃ st s',
    GetUncachedExecutor d cfg s = Returns (Error st) s'
    ∧ code st = kInternal
    ∧ message st =
        "failed initializing StreamExecutor for CUDA device ordinal "
        +:+ pretty (ordinal cfg) +:+ ": "
        +:+ StatusCodeToString (code (Init d (ordinal cfg) (device_options cfg)))
        +:+ ": " +:+ message (Init d (ordinal cfg) (device_options cfg))
    ∧ init_log (proc s') = ordinal cfg :: init_log (proc s)
    ∧ executor_cache_ (self s') = executor_cache_ (self s)
    ∧ (executor_cache_ (self s) !! cfg = None →
         ExecutorCache_GetOrCreate cfg (GetUncachedExecutor d cfg) s
           = Returns (Error st) s'
         ∧ (gpu_stream cfg = nullptr →
              GetExecutor d cfg s = Returns (Error st) s')
         ∧ (cfg = device_key (ordinal cfg) →
              ExecutorForDevice d (ordinal cfg) s = Returns (Error st) s')).
Proof.
  intros Hfail. eexists _, _. split.
  { unfold GetUncachedExecutor. rewrite Hfail. reflexivity. }
  simpl. split; [reflexivity|]. split.
  { unfold init_failure_message, ToString. by rewrite Hfail. }
  split; [reflexivity|]. split; [reflexivity|]. intros Hmiss.
  split; [by apply GetOrCreate_failed|]. split.
  - intros Hs. rewrite (GetExecutor_no_stream d cfg s Hs).
    by apply GetOrCreate_failed.
  - intros Hkey. rewrite ExecutorForDevice_unfold, <- Hkey.
    by apply GetOrCreate_failed.
Qed.

(** C7.  When the topology scan meets a device whose executor cannot be
    obtained (not cached, and [Init] fails), it neither skips the device
    nor finalises a range: [InspectNumaNodes] ends with the [Internal]
    status of the first such device, and so do its callers [BusCount] and
    [FirstExecutorForBus]. *)
Theorem scan_failure_propagates d s k :
  once (proc s) = false → cache_wf s →
  0 <= k < VisibleDeviceCount d →
  (∀ i, 0 <= i < k → obtainable d s i) →
  executor_cache_ (self s) !! device_key k = None →
  ok (Init d k DefaultDeviceOptions) = false →
  let failure :=
    BadStatusOrAccess
      (MkStatus kInternal (init_failure_message k (Init d k DefaultDeviceOptions))) in
  InspectNumaNodes d s = Aborts failure
  ∧ BusCount d s = Aborts failure
  ∧ ∀ bus, FirstExecutorForBus d bus s = Aborts failure.
Proof.
  intros Honce Hwf Hk Hob Hmiss Hfail failure.
  assert (Hscan : InspectNumaNodes d s = Aborts failure).
  { unfold InspectNumaNodes, call_once. rewrite Honce.
    unfold device_ordinals.
    replace (VisibleDeviceCount d) with (k + (VisibleDeviceCount d - k)) by lia.
    rewrite seqZ_app by lia.
    rewrite (seqZ_cons (0 + k)) by lia.
    rewrite (scan_loop_aborts d (seqZ 0 k) (0 + k)); auto.
    - intros i Hi. apply elem_of_seqZ in Hi. apply Hob. lia.
    - intros Hin. apply elem_of_seqZ in Hin. lia. }
  split; [exact Hscan|]. split.
  - unfold BusCount, bind. by rewrite Hscan.
  - intros bus. unfold FirstExecutorForBus, bind. by rewrite Hscan.
Qed.

(** ** Invariants of the methods *)

Section Maintains.

Context (P : State → Prop).

Lemma maintains_ret {A} (a : A) : maintains P (ret a).
Proof. intros s a' s' HP [= _ <-]. exact HP. Qed.

Lemma maintains_abort {A} (f : Fatal) : maintains P (@abort A f).
Proof. intros s a s' _ [=]. Qed.

Lemma maintains_bind {A B} (m : M A) (k : A → M B) :
  maintains P m → (∀ a, maintains P (k a)) → maintains P (bind m k).
Proof.
  intros Hm Hk s b s' HP. unfold bind.
  destruct (m s) as [a s1|f] eqn:Hms; [|discriminate].
  apply (Hk a). by apply (Hm s a).
Qed.

Lemma maintains_deref {A} (r : StatusOr A) : maintains P (deref r).
Proof. destruct r; [apply maintains_ret|apply maintains_abort]. Qed.

Lemma maintains_for_each {A} (body : A → M unit) (l : list A) :
  (∀ x, maintains P (body x)) → maintains P (for_each body l).
Proof.
  intros Hbody. induction l as [|x l IH]; simpl.
  - apply maintains_ret.
  - apply maintains_bind; [apply Hbody|]. intros _. exact IH.
Qed.

Lemma maintains_drop {A} (m : M A) :
  maintains P m → maintains P (bind m (λ _, ret tt)).
Proof. intros Hm. apply maintains_bind; [exact Hm|]. intros _. apply maintains_ret. Qed.

End Maintains.

Create HintDb maintains.
#[local] Hint Resolve maintains_ret maintains_abort maintains_deref : maintains.

(** Splits a method body along its binds, then closes the leaves. *)
Ltac maintains_steps :=
  repeat (apply maintains_bind; [|intros ?]);
  eauto with maintains.

(** *** No method but the scan writes the flag or the pair *)

Lemma pinned_get_min o t : maintains (pinned o t) get_min.
Proof. intros s a s' HP [= _ <-]. exact HP. Qed.

Lemma pinned_get_limit o t : maintains (pinned o t) get_limit.
Proof. intros s a s' HP [= _ <-]. exact HP. Qed.

Lemma pinned_GetExecutor o t d cfg : maintains (pinned o t) (GetExecutor d cfg).
Proof.
  intros s r s' HP. unfold GetExecutor.
  destruct (negb (gpu_stream cfg =? nullptr)).
  - unfold ExecutorCache_Get.
    destruct (executor_cache_ (self s) !! cfg); intros [= _ <-]; exact HP.
  - unfold ExecutorCache_GetOrCreate.
    destruct (executor_cache_ (self s) !! cfg); [intros [= _ <-]; exact HP|].
    unfold bind, GetUncachedExecutor.
    destruct (negb (ok _)); simpl; intros [= _ <-]; exact HP.
Qed.

#[local] Hint Resolve pinned_get_min pinned_get_limit pinned_GetExecutor : maintains.

Lemma pinned_ExecutorForDevice o t d i : maintains (pinned o t) (ExecutorForDevice d i).
Proof. apply pinned_GetExecutor. Qed.

Lemma pinned_DeviceToBus o t d i : maintains (pinned o t) (DeviceToBus d i).
Proof.
  unfold DeviceToBus.
  apply maintains_bind; [apply pinned_ExecutorForDevice|]. intros r. maintains_steps.
Qed.

Lemma pinned_first_on_bus o t d bus ords :
  maintains (pinned o t) (first_on_bus d bus ords).
Proof.
  induction ords as [|i ords IH]; simpl; [apply maintains_ret|].
  apply maintains_bind; [apply pinned_DeviceToBus|]. intros b.
  destruct (b =? bus); [|exact IH].
  apply maintains_bind; [apply pinned_ExecutorForDevice|]. intros r. maintains_steps.
Qed.

(** With the flag set, [InspectNumaNodes] is the identity. *)
Lemma pinned_InspectNumaNodes t d : maintains (pinned true t) (InspectNumaNodes d).
Proof.
  intros s a s' HP. rewrite (InspectNumaNodes_done d s (proj1 HP)).
  intros [= _ <-]. exact HP.
Qed.

Lemma pinned_BusCount t d : maintains (pinned true t) (BusCount d).
Proof.
  unfold BusCount.
  apply maintains_bind; [apply pinned_InspectNumaNodes|]. intros _. maintains_steps.
Qed.

Lemma pinned_FirstExecutorForBus t d bus :
  maintains (pinned true t) (FirstExecutorForBus d bus).
Proof.
  unfold FirstExecutorForBus.
  apply maintains_bind; [apply pinned_InspectNumaNodes|]. intros _.
  apply maintains_bind; [apply pinned_BusCount|]. intros count.
  destruct (negb (bus <? count)); [apply maintains_abort|apply pinned_first_on_bus].
Qed.

Lemma pinned_perform t d c : maintains (pinned true t) (perform d c).
Proof.
  destruct c as [| |i|bus|ord|config]; simpl.
  - apply pinned_InspectNumaNodes.
  - apply maintains_drop, pinned_BusCount.
  - apply maintains_drop, pinned_DeviceToBus.
  - apply maintains_drop, pinned_FirstExecutorForBus.
  - apply maintains_drop, pinned_ExecutorForDevice.
  - apply maintains_drop, pinned_GetExecutor.
Qed.

Lemma pinned_perform_all t d calls : maintains (pinned true t) (perform_all d calls).
Proof. apply maintains_for_each. intros c. apply pinned_perform. Qed.

(** *** Every method keeps the cache well-formed *)

Lemma cache_wf_get_min : maintains cache_wf get_min.
Proof. intros s a s' HP [= _ <-]. exact HP. Qed.

Lemma cache_wf_get_limit : maintains cache_wf get_limit.
Proof. intros s a s' HP [= _ <-]. exact HP. Qed.

Lemma cache_wf_set_min v : maintains cache_wf (set_min v).
Proof. intros s a s' HP [= _ <-]. exact HP. Qed.

Lemma cache_wf_set_limit v : maintains cache_wf (set_limit v).
Proof. intros s a s' HP [= _ <-]. exact HP. Qed.

Lemma cache_wf_GetExecutor d cfg : maintains cache_wf (GetExecutor d cfg).
Proof.
  intros s r s' HP. unfold GetExecutor.
  destruct (negb (gpu_stream cfg =? nullptr)).
  - unfold ExecutorCache_Get.
    destruct (executor_cache_ (self s) !! cfg); intros [= _ <-]; exact HP.
  - unfold ExecutorCache_GetOrCreate.
    destruct (executor_cache_ (self s) !! cfg); [intros [= _ <-]; exact HP|].
    unfold bind, GetUncachedExecutor.
    destruct (negb (ok _)); simpl; intros [= _ <-]; [exact HP|].
    intros cfg' e. simpl. rewrite lookup_insert. case_decide as Heq.
    + intros [= <-]. by subst cfg'.
    + apply HP.
Qed.

#[local] Hint Resolve cache_wf_get_min cache_wf_get_limit cache_wf_set_min
  cache_wf_set_limit cache_wf_GetExecutor : maintains.

Lemma cache_wf_ExecutorForDevice d i : maintains cache_wf (ExecutorForDevice d i).
Proof. apply cache_wf_GetExecutor. Qed.

Lemma cache_wf_inspect_device d i : maintains cache_wf (inspect_device d i).
Proof.
  unfold inspect_device.
  apply maintains_bind; [apply cache_wf_ExecutorForDevice|]. intros r.
  apply maintains_bind; [apply maintains_deref|]. intros exec.
  destruct (i =? 0); maintains_steps.
Qed.

Lemma cache_wf_InspectNumaNodes d : maintains cache_wf (InspectNumaNodes d).
Proof.
  intros s a s' HP. unfold InspectNumaNodes, call_once.
  destruct (once (proc s)); [intros [= _ <-]; exact HP|].
  destruct (for_each _ _ s) as [[] s1|f] eqn:Hloop; [|discriminate].
  intros [= _ <-].
  apply (maintains_for_each cache_wf _ _ (cache_wf_inspect_device d) _ _ _ HP Hloop).
Qed.

Lemma cache_wf_DeviceToBus d i : maintains cache_wf (DeviceToBus d i).
Proof.
  unfold DeviceToBus.
  apply maintains_bind; [apply cache_wf_ExecutorForDevice|]. intros r. maintains_steps.
Qed.

Lemma cache_wf_BusCount d : maintains cache_wf (BusCount d).
Proof.
  unfold BusCount.
  apply maintains_bind; [apply cache_wf_InspectNumaNodes|]. intros _. maintains_steps.
Qed.

Lemma cache_wf_first_on_bus d bus ords :
  maintains cache_wf (first_on_bus d bus ords).
Proof.
  induction ords as [|i ords IH]; simpl; [apply maintains_ret|].
  apply maintains_bind; [apply cache_wf_DeviceToBus|]. intros b.
  destruct (b =? bus); [|exact IH].
  apply maintains_bind; [apply cache_wf_ExecutorForDevice|]. intros r. maintains_steps.
Qed.

Lemma cache_wf_FirstExecutorForBus d bus :
  maintains cache_wf (FirstExecutorForBus d bus).
Proof.
  unfold FirstExecutorForBus.
  apply maintains_bind; [apply cache_wf_InspectNumaNodes|]. intros _.
  apply maintains_bind; [apply cache_wf_BusCount|]. intros count.
  destruct (negb (bus <? count)); [apply maintains_abort|apply cache_wf_first_on_bus].
Qed.

(** The cache of a platform object is well-formed after any run of calls
    that starts from its construction. *)
Lemma cache_wf_perform_all d calls : maintains cache_wf (perform_all d calls).
Proof.
  apply maintains_for_each. intros c.
  destruct c as [| |i|bus|ord|config]; simpl.
  - apply cache_wf_InspectNumaNodes.
  - apply maintains_drop, cache_wf_BusCount.
  - apply maintains_drop, cache_wf_DeviceToBus.
  - apply maintains_drop, cache_wf_FirstExecutorForBus.
  - apply maintains_drop, cache_wf_ExecutorForDevice.
  - apply maintains_drop, cache_wf_GetExecutor.
Qed.

(** *** A scan that returns has visited every device *)

Lemma inspect_device_cached d i s s' :
  inspect_device d i s = Returns tt s' →
  is_Some (executor_cache_ (self s') !! device_key i)
  ∧ executor_cache_ (self s) ⊆ executor_cache_ (self s').
Proof.
  unfold inspect_device, bind. rewrite ExecutorForDevice_unfold.
  unfold ExecutorCache_GetOrCreate.
  destruct (executor_cache_ (self s) !! device_key i) as [e|] eqn:Hc.
  - simpl. destruct (i =? 0); simpl; intros [= <-]; simpl; by rewrite Hc.
  - unfold bind, GetUncachedExecutor.
    destruct (negb (ok _)); simpl; [discriminate|].
    destruct (i =? 0); simpl; intros [= <-]; simpl;
      (split; [rewrite lookup_insert_eq; by eexists|by apply insert_subseteq]).
Qed.

Lemma scan_loop_cached d ords : ∀ s s',
  for_each (inspect_device d) ords s = Returns tt s' →
  (∀ i, i ∈ ords → is_Some (executor_cache_ (self s') !! device_key i))
  ∧ executor_cache_ (self s) ⊆ executor_cache_ (self s').
Proof.
  induction ords as [|i ords IH]; intros s s'; simpl.
  - intros [= <-]. split; [|done]. intros i Hi. inversion Hi.
  - unfold bind. destruct (inspect_device d i s) as [[] s1|f] eqn:Hstep; [|discriminate].
    intros Hrest. destruct (inspect_device_cached d i s s1 Hstep) as [[e He] Hsub1].
    destruct (IH s1 s' Hrest) as [Hin Hsub2]. split; [|by etrans].
    intros j Hj. apply elem_of_cons in Hj as [-> | Hj]; [|by apply Hin].
    exists e. by eapply lookup_weaken.
Qed.

(** Whenever the scan runs and [InspectNumaNodes] returns, the executor of
    every visible device has been obtained: no device is passed over. *)
Lemma scan_skips_no_device d s s' :
  once (proc s) = false → InspectNumaNodes d s = Returns tt s' →
  ∀ i, 0 <= i < VisibleDeviceCount d →
    is_Some (executor_cache_ (self s') !! device_key i).
Proof.
  intros Honce. unfold InspectNumaNodes, call_once. rewrite Honce.
  destruct (for_each _ _ s) as [[] s1|f] eqn:Hloop; [|discriminate].
  intros [= <-] i Hi. simpl.
  apply (proj1 (scan_loop_cached d _ s s1 Hloop)).
  unfold device_ordinals. apply elem_of_seqZ. lia.
Qed.

(** Before discovery [DeviceToBus] subtracts the constructor's zero: it
    does not run the scan itself. *)
Example DeviceToBus_before_discovery :
  ∃ s', DeviceToBus (driver_of_buses [5; 7]) 0 (fresh process_start) = Returns 5 s'
        ∧ once (proc s') = false ∧ topology s' = (0, 0).
Proof. eexists. split; [vm_compute; reflexivity|]. by split. Qed.

(** C8.  After a completed call of [InspectNumaNodes], every later call of
    [InspectNumaNodes] and of [BusCount] returns and leaves the state as it
    is, and any sequence of operations of the platform (among them
    [InspectNumaNodes], [BusCount], [DeviceToBus]), under any driver,
    leaves [{min_numa_node_, limit_numa_node_}] unchanged. *)
Theorem topology_write_once d s s1 d' :
  InspectNumaNodes d s = Returns tt s1 →
  InspectNumaNodes d' s1 = Returns tt s1
  ∧ BusCount d' s1
    = Returns (Int.sub (limit_numa_node_ (self s1)) (min_numa_node_ (self s1))) s1
  ∧ ∀ calls s2, perform_all d' calls s1 = Returns tt s2 →
      topology s2 = topology s1.
Proof.
  intros Hrun. pose proof (InspectNumaNodes_sets_once d s s1 Hrun) as Honce.
  split; [by apply InspectNumaNodes_done|]. split; [by apply BusCount_done|].
  intros calls s2 Hcalls.
  by destruct (pinned_perform_all (topology s1) d' calls s1 tt s2).
Qed.

(** C9.  The once-flag belongs to the process, not to the platform object.
    After a call of [InspectNumaNodes] has returned on one object,
    [InspectNumaNodes] on any object of the same process runs no scan and
    changes nothing; on a second, freshly constructed object the pair
    keeps the constructor's zeros and [BusCount()] returns 0, whatever the
    driver reports as the device count. *)
Theorem second_instance_never_scans d s s1 d' :
  InspectNumaNodes d s = Returns tt s1 →
  (∀ p, InspectNumaNodes d' (MkState (proc s1) p) = Returns tt (MkState (proc s1) p))
  ∧ InspectNumaNodes d' (fresh (proc s1)) = Returns tt (fresh (proc s1))
  ∧ min_numa_node_ (self (fresh (proc s1))) = 0
  ∧ limit_numa_node_ (self (fresh (proc s1))) = 0
  ∧ BusCount d' (fresh (proc s1)) = Returns 0 (fresh (proc s1)).
Proof.
  intros Hrun. pose proof (InspectNumaNodes_sets_once d s s1 Hrun) as Honce.
  split; [intros p; by apply InspectNumaNodes_done|].
  split; [by apply InspectNumaNodes_done|].
  split; [reflexivity|]. split; [reflexivity|].
  by rewrite BusCount_done.
Qed.

(** ** The statements at concrete populations *)

(** Three devices on buses 2, 0, 0, in a process that has not scanned. *)
Lemma topology_scan_result_witness :
  ∃ s' count,
    InspectNumaNodes (driver_of_buses [2; 0; 0]) (fresh process_start) = Returns tt s'
    ∧ BusCount (driver_of_buses [2; 0; 0]) (fresh process_start) = Returns count s'
    ∧ (VisibleDeviceCount (driver_of_buses [2; 0; 0]) = 0 →
         min_numa_node_ (self s') = 0 ∧ limit_numa_node_ (self s') = 0 ∧ count = 0)
    ∧ (0 < VisibleDeviceCount (driver_of_buses [2; 0; 0]) →
         ∃ lo hi, is_min_bus (driver_of_buses [2; 0; 0]) 3 lo
                  ∧ is_max_bus (driver_of_buses [2; 0; 0]) 3 hi
                  ∧ min_numa_node_ (self s') = lo
                  ∧ limit_numa_node_ (self s') = hi + 1
                  ∧ count = hi - lo + 1).
Proof.
  apply (topology_scan_result (driver_of_buses [2; 0; 0]) (fresh process_start)).
  - reflexivity.
  - reflexivity.
  - apply cache_wf_fresh.
  - apply all_obtainable_init_ok. reflexivity.
  - apply bus_ids_fit_small. intros i Hi. simpl in Hi.
    assert (i = 0 ∨ i = 1 ∨ i = 2) as [-> | [-> | ->]] by lia; simpl; lia.
Defined.

Lemma DeviceToBus_after_discovery_witness :
  ∃ lo, is_min_bus (driver_of_buses [5; 7; 6]) 3 lo
        ∧ min_numa_node_
            (self (after_inspect (driver_of_buses [5; 7; 6]) (fresh process_start))) = lo
        ∧ DeviceToBus (driver_of_buses [5; 7; 6]) 1
            (after_inspect (driver_of_buses [5; 7; 6]) (fresh process_start))
          = Returns (numa_node (driver_of_buses [5; 7; 6]) 1 - lo)
              (after_inspect (driver_of_buses [5; 7; 6]) (fresh process_start)).
Proof.
  apply (DeviceToBus_after_discovery (driver_of_buses [5; 7; 6]) (fresh process_start)).
  - reflexivity.
  - apply cache_wf_fresh.
  - apply all_obtainable_init_ok. reflexivity.
  - apply bus_ids_fit_small. intros i Hi. simpl in Hi.
    assert (i = 0 ∨ i = 1 ∨ i = 2) as [-> | [-> | ->]] by lia; simpl; lia.
  - vm_compute. reflexivity.
  - simpl. lia.
Defined.

(** Buses 2, 0, 1: bus 1 is served first by device 2. *)
Lemma FirstExecutorForBus_in_range_witness :
  ∃ r s', FirstExecutorForBus (driver_of_buses [2; 0; 1]) 1 (fresh process_start)
          = Returns r s'
    ∧ ((∃ k e, 0 <= k < VisibleDeviceCount (driver_of_buses [2; 0; 1])
               ∧ r = Value e ∧ device_ordinal e = k
               ∧ ExecutorForDevice (driver_of_buses [2; 0; 1]) k s' = Returns (Value e) s'
               ∧ DeviceToBus (driver_of_buses [2; 0; 1]) k s' = Returns 1 s'
               ∧ ∀ j, 0 <= j < k →
                   ∃ b, DeviceToBus (driver_of_buses [2; 0; 1]) j s' = Returns b s'
                        ∧ b ≠ 1)
       ∨ (∃ st, r = Error st ∧ code st = kNotFound
                ∧ ∀ j, 0 <= j < VisibleDeviceCount (driver_of_buses [2; 0; 1]) →
                    ∃ b, DeviceToBus (driver_of_buses [2; 0; 1]) j s' = Returns b s'
                         ∧ b ≠ 1)).
Proof.
  apply (proj1 FirstExecutorForBus_in_range
           (driver_of_buses [2; 0; 1]) (fresh process_start)
           (after_inspect (driver_of_buses [2; 0; 1]) (fresh process_start)) 3 1).
  - apply cache_wf_fresh.
  - apply all_obtainable_init_ok. reflexivity.
  - vm_compute. reflexivity.
  - lia.
Defined.

Lemma FirstExecutorForBus_out_of_range_witness :
  FirstExecutorForBus (driver_of_buses [2; 0; 0]) 3 (fresh process_start)
    = Aborts (CheckFailed "bus ordinal out of available range")
  ∧ ∀ r s', FirstExecutorForBus (driver_of_buses [2; 0; 0]) 3 (fresh process_start)
            ≠ Returns r s'.
Proof.
  apply (FirstExecutorForBus_out_of_range
           (driver_of_buses [2; 0; 0]) (fresh process_start)
           (after_inspect (driver_of_buses [2; 0; 0]) (fresh process_start)) 3 3).
  - vm_compute. reflexivity.
  - lia.
Defined.

(** A config that carries a stream handle and one that does not, on an
    empty cache. *)
Lemma GetExecutor_dispatch_witness :
  (∃ st, GetExecutor (driver_of_buses [2; 0; 0])
           (MkConfig 1 DefaultDeviceOptions 4096) (fresh process_start)
         = Returns (Error st) (fresh process_start)
         ∧ code st = kNotFound)
  ∧ (∃ r s', GetExecutor (driver_of_buses [2; 0; 0]) (device_key 1) (fresh process_start)
             = Returns r s'
             ∧ constructed (proc s') = 1%nat
             ∧ r = Value (MkExecutor 1 DefaultDeviceOptions 0)).
Proof.
  split.
  - destruct (proj1 (GetExecutor_dispatch (driver_of_buses [2; 0; 0])
                       (MkConfig 1 DefaultDeviceOptions 4096) (fresh process_start)))
      as (_ & r & Hrun & Hmiss & _).
    { discriminate. }
    destruct Hmiss as (st & -> & Hcode); [reflexivity|].
    exists st. split; assumption.
  - destruct (proj2 (GetExecutor_dispatch (driver_of_buses [2; 0; 0])
                       (device_key 1) (fresh process_start)))
      as (_ & _ & Hmiss).
    { reflexivity. }
    destruct Hmiss as (r & s' & Hrun & Hc & _ & Hok); [reflexivity|].
    destruct Hok as [-> _]; [reflexivity|].
    eexists _, s'. split; [exact Hrun|]. split; [exact Hc|reflexivity].
Defined.

(** Device 1 of two refuses to initialise. *)
Lemma init_failure_propagates_witness :
  ∃ st s',
    GetUncachedExecutor
      (driver_failing_at [5; 7] 1 (MkStatus kUnavailable "device lost"))
      (device_key 1) (fresh process_start) = Returns (Error st) s'
    ∧ code st = kInternal
    ∧ message st =
        "failed initializing StreamExecutor for CUDA device ordinal 1: UNAVAILABLE: device lost"
    ∧ ExecutorForDevice
        (driver_failing_at [5; 7] 1 (MkStatus kUnavailable "device lost"))
        1 (fresh process_start) = Returns (Error st) s'.
Proof.
  destruct (init_failure_propagates
              (driver_failing_at [5; 7] 1 (MkStatus kUnavailable "device lost"))
              (device_key 1) (fresh process_start))
    as (st & s' & Hrun & Hcode & Hmsg & _ & _ & Hcallers).
  { reflexivity. }
  exists st, s'. split; [exact Hrun|]. split; [exact Hcode|].
  split; [rewrite Hmsg; reflexivity|].
  apply Hcallers; reflexivity.
Defined.

Lemma scan_failure_propagates_witness :
  InspectNumaNodes
    (driver_failing_at [5; 7; 6] 1 (MkStatus kUnavailable "device lost"))
    (fresh process_start)
  = Aborts (BadStatusOrAccess (MkStatus kInternal
      "failed initializing StreamExecutor for CUDA device ordinal 1: UNAVAILABLE: device lost")).
Proof.
  apply (scan_failure_propagates
           (driver_failing_at [5; 7; 6] 1 (MkStatus kUnavailable "device lost"))
           (fresh process_start) 1).
  - reflexivity.
  - apply cache_wf_fresh.
  - simpl. lia.
  - intros i Hi. right. assert (i = 0) as -> by lia. reflexivity.
  - reflexivity.
  - reflexivity.
Defined.

(** After the scan of buses 2, 0, 0, a run of further calls under a driver
    that reports four devices on bus 9. *)
Lemma topology_write_once_witness :
  topology (after_inspect (driver_of_buses [2; 0; 0]) (fresh process_start)) = (0, 3)
  ∧ topology
      (after_calls (driver_of_buses [9; 9; 9; 9])
         [CallInspectNumaNodes; CallBusCount; CallDeviceToBus 3; CallInspectNumaNodes]
         (after_inspect (driver_of_buses [2; 0; 0]) (fresh process_start)))
    = topology (after_inspect (driver_of_buses [2; 0; 0]) (fresh process_start)).
Proof.
  split; [reflexivity|].
  destruct (topology_write_once (driver_of_buses [2; 0; 0]) (fresh process_start)
              (after_inspect (driver_of_buses [2; 0; 0]) (fresh process_start))
              (driver_of_buses [9; 9; 9; 9]))
    as (_ & _ & Hcalls).
  - vm_compute. reflexivity.
  - apply (Hcalls [CallInspectNumaNodes; CallBusCount; CallDeviceToBus 3;
                   CallInspectNumaNodes]).
    vm_compute. reflexivity.
Defined.

(** A second platform object in the process that scanned buses 2, 0, 0. *)
Lemma second_instance_never_scans_witness :
  BusCount (driver_of_buses [2; 0; 0]) (fresh process_start)
    = Returns 3 (after_inspect (driver_of_buses [2; 0; 0]) (fresh process_start))
  ∧ BusCount (driver_of_buses [2; 0; 0])
      (fresh (proc (after_inspect (driver_of_buses [2; 0; 0]) (fresh process_start))))
    = Returns 0
        (fresh (proc (after_inspect (driver_of_buses [2; 0; 0]) (fresh process_start)))).
Proof.
  split; [vm_compute; reflexivity|].
  apply (second_instance_never_scans (driver_of_buses [2; 0; 0]) (fresh process_start)
           (after_inspect (driver_of_buses [2; 0; 0]) (fresh process_start))
           (driver_of_buses [2; 0; 0])).
  vm_compute. reflexivity.
Defined.

(** * Further properties of the platform *)

(** ** What the methods never undo *)

Lemma evolves_refl s : evolves s s.
Proof. repeat split; auto. Qed.

Lemma evolves_get_min s0 : maintains (evolves s0) get_min.
Proof. intros s a s' HP [= _ <-]. exact HP. Qed.

Lemma evolves_get_limit s0 : maintains (evolves s0) get_limit.
Proof. intros s a s' HP [= _ <-]. exact HP. Qed.

Lemma evolves_set_min s0 v : maintains (evolves s0) (set_min v).
Proof. intros s a s' HP [= _ <-]. exact HP. Qed.

Lemma evolves_set_limit s0 v : maintains (evolves s0) (set_limit v).
Proof. intros s a s' HP [= _ <-]. exact HP. Qed.

Lemma evolves_GetExecutor s0 d cfg : maintains (evolves s0) (GetExecutor d cfg).
Proof.
  intros s r s' HP. unfold GetExecutor.
  destruct (negb (gpu_stream cfg =? nullptr)).
  - unfold ExecutorCache_Get.
    destruct (executor_cache_ (self s) !! cfg); intros [= _ <-]; exact HP.
  - unfold ExecutorCache_GetOrCreate.
    destruct (executor_cache_ (self s) !! cfg) eqn:Hc; [intros [= _ <-]; exact HP|].
    destruct HP as (Hname & Hsub & Honce & Hlog & Hcount).
    unfold bind, GetUncachedExecutor.
    destruct (negb (ok _)); simpl; intros [= _ <-]; simpl;
      (split; [exact Hname|]); (split; [|split; [exact Honce|split]]);
      try (by apply suffix_cons_r); try (simpl; lia); try exact Hsub.
    etrans; [exact Hsub|]. by apply insert_subseteq.
Qed.

#[local] Hint Resolve evolves_get_min evolves_get_limit evolves_set_min
  evolves_set_limit evolves_GetExecutor : maintains.

Lemma evolves_ExecutorForDevice s0 d i : maintains (evolves s0) (ExecutorForDevice d i).
Proof. apply evolves_GetExecutor. Qed.

Lemma evolves_inspect_device s0 d i : maintains (evolves s0) (inspect_device d i).
Proof.
  unfold inspect_device.
  apply maintains_bind; [apply evolves_ExecutorForDevice|]. intros r.
  apply maintains_bind; [apply maintains_deref|]. intros exec.
  destruct (i =? 0); maintains_steps.
Qed.

Lemma evolves_InspectNumaNodes s0 d : maintains (evolves s0) (InspectNumaNodes d).
Proof.
  intros s a s' HP. unfold InspectNumaNodes, call_once.
  destruct (once (proc s)); [intros [= _ <-]; exact HP|].
  destruct (for_each _ _ s) as [[] s1|f] eqn:Hloop; [|discriminate].
  intros [= _ <-].
  destruct (maintains_for_each (evolves s0) _ _ (evolves_inspect_device s0 d)
              _ _ _ HP Hloop) as (Hname & Hsub & _ & Hlog & Hcount).
  by repeat split.
Qed.

Lemma evolves_DeviceToBus s0 d i : maintains (evolves s0) (DeviceToBus d i).
Proof.
  unfold DeviceToBus.
  apply maintains_bind; [apply evolves_ExecutorForDevice|]. intros r. maintains_steps.
Qed.

Lemma evolves_BusCount s0 d : maintains (evolves s0) (BusCount d).
Proof.
  unfold BusCount.
  apply maintains_bind; [apply evolves_InspectNumaNodes|]. intros _. maintains_steps.
Qed.

Lemma evolves_first_on_bus s0 d bus ords :
  maintains (evolves s0) (first_on_bus d bus ords).
Proof.
  induction ords as [|i ords IH]; simpl; [apply maintains_ret|].
  apply maintains_bind; [apply evolves_DeviceToBus|]. intros b.
  destruct (b =? bus); [|exact IH].
  apply maintains_bind; [apply evolves_ExecutorForDevice|]. intros r. maintains_steps.
Qed.

Lemma evolves_FirstExecutorForBus s0 d bus :
  maintains (evolves s0) (FirstExecutorForBus d bus).
Proof.
  unfold FirstExecutorForBus.
  apply maintains_bind; [apply evolves_InspectNumaNodes|]. intros _.
  apply maintains_bind; [apply evolves_BusCount|]. intros count.
  destruct (negb (bus <? count)); [apply maintains_abort|apply evolves_first_on_bus].
Qed.

Lemma evolves_perform_all s0 d calls : maintains (evolves s0) (perform_all d calls).
Proof.
  apply maintains_for_each. intros c.
  destruct c as [| |i|bus|ord|config]; simpl.
  - apply evolves_InspectNumaNodes.
  - apply maintains_drop, evolves_BusCount.
  - apply maintains_drop, evolves_DeviceToBus.
  - apply maintains_drop, evolves_FirstExecutorForBus.
  - apply maintains_drop, evolves_ExecutorForDevice.
  - apply maintains_drop, evolves_GetExecutor.
Qed.

Lemma ExecutorForDevice_value_cached d i s e s' :
  ExecutorForDevice d i s = Returns (Value e) s' →
  executor_cache_ (self s') !! device_key i = Some e.
Proof.
  rewrite ExecutorForDevice_unfold. unfold ExecutorCache_GetOrCreate.
  destruct (executor_cache_ (self s) !! device_key i) as [e0|] eqn:Hc.
  - by intros [= <- <-].
  - unfold bind, GetUncachedExecutor.
    destruct (negb (ok _)); simpl; [discriminate|].
    intros [= <- <-]. simpl. apply lookup_insert_eq.
Qed.

Lemma ExecutorForDevice_error_uncached d i s st s' :
  ExecutorForDevice d i s = Returns (Error st) s' →
  executor_cache_ (self s') !! device_key i = None.
Proof.
  rewrite ExecutorForDevice_unfold. unfold ExecutorCache_GetOrCreate.
  destruct (executor_cache_ (self s) !! device_key i) as [e0|] eqn:Hc; [discriminate|].
  unfold bind, GetUncachedExecutor.
  destruct (negb (ok _)); simpl; [|discriminate].
  by intros [= _ <-].
Qed.

(** X1.  No run of platform calls removes or replaces a cached executor,
    renames the platform, clears a set once-flag or rewrites the [Init]
    log; and every executor constructed during the run had exactly one
    [Init] invocation. *)
Theorem calls_only_extend d calls s s' :
  perform_all d calls s = Returns tt s' →
  name_ (self s') = name_ (self s)
  ∧ (∀ cfg e, executor_cache_ (self s) !! cfg = Some e →
              executor_cache_ (self s') !! cfg = Some e)
  ∧ (once (proc s) = true → once (proc s') = true)
  ∧ (∃ added, init_log (proc s') = added ++ init_log (proc s)
              ∧ constructed (proc s') = (constructed (proc s) + length added)%nat).
Proof.
  intros Hrun.
  destruct (evolves_perform_all s d calls s tt s' (evolves_refl s) Hrun)
    as (Hname & Hsub & Honce & [added Hlog] & Hcount).
  split; [exact Hname|]. split; [|split; [exact Honce|]].
  - intros cfg e He. by eapply lookup_weaken.
  - exists added. split; [exact Hlog|].
    rewrite Hlog, length_app in Hcount. lia.
Qed.

(** X2.  Once [ExecutorForDevice(i)] has returned an executor, every later
    [ExecutorForDevice(i)] on that platform object, after any run of other
    calls and whatever the driver reports by then, returns that same
    executor and changes nothing: no second executor is constructed and
    [Init] is not invoked again. *)
Theorem ExecutorForDevice_stable d i s e s1 d' calls s2 d'' :
  ExecutorForDevice d i s = Returns (Value e) s1 →
  perform_all d' calls s1 = Returns tt s2 →
  ExecutorForDevice d'' i s2 = Returns (Value e) s2.
Proof.
  intros Hfirst Hcalls.
  pose proof (ExecutorForDevice_value_cached d i s e s1 Hfirst) as Hc.
  destruct (evolves_perform_all s1 d' calls s1 tt s2 (evolves_refl s1) Hcalls)
    as (_ & Hsub & _).
  rewrite ExecutorForDevice_unfold. apply GetOrCreate_hit.
  by eapply lookup_weaken.
Qed.

(** X3.  A failed [ExecutorForDevice(i)] leaves no entry behind: the next
    call invokes [Init] again, and when the driver then succeeds it
    constructs a new executor for ordinal [i], caches it and returns it. *)
Theorem ExecutorForDevice_retry d i s st s1 d' :
  ExecutorForDevice d i s = Returns (Error st) s1 →
  ok (Init d' i DefaultDeviceOptions) = true →
  ∃ s2,
    ExecutorForDevice d' i s1
      = Returns (Value (MkExecutor i DefaultDeviceOptions (constructed (proc s1)))) s2
    ∧ init_log (proc s2) = i :: init_log (proc s1)
    ∧ executor_cache_ (self s2) !! device_key i
      = Some (MkExecutor i DefaultDeviceOptions (constructed (proc s1))).
Proof.
  intros Hfail Hok.
  pose proof (ExecutorForDevice_error_uncached d i s st s1 Hfail) as Hmiss.
  rewrite ExecutorForDevice_unfold.
  rewrite (GetOrCreate_created d' (device_key i) s1 Hmiss Hok).
  eexists. split; [reflexivity|]. simpl. split; [reflexivity|].
  apply lookup_insert_eq.
Qed.


(** X5.  [Name()] is "SYCL" on a platform object whatever calls were made
    on it since its construction, and reading it changes nothing. *)
Theorem Name_is_SYCL p d calls s :
  perform_all d calls (fresh p) = Returns tt s →
  Name s = Returns "SYCL" s.
Proof.
  intros Hcalls.
  destruct (evolves_perform_all (fresh p) d calls (fresh p) tt s
              (evolves_refl _) Hcalls) as (Hname & _).
  unfold Name. by rewrite Hname.
Qed.

(** ** Bus queries around the scan *)

(** The facts about the state a scan of a non-empty population leaves. *)
Lemma scanned_state d s s1 :
  once (proc s) = false → cache_wf s → all_obtainable d s → bus_ids_fit d →
  0 < VisibleDeviceCount d →
  InspectNumaNodes d s = Returns tt s1 →
  ∃ lo hi,
    is_min_bus d (VisibleDeviceCount d) lo ∧ is_max_bus d (VisibleDeviceCount d) hi
    ∧ topology s1 = (lo, hi + 1)
    ∧ once (proc s1) = true ∧ cache_wf s1
    ∧ (∀ i, 0 <= i < VisibleDeviceCount d →
         is_Some (executor_cache_ (self s1) !! device_key i))
    ∧ Int.sub (hi + 1) lo = hi - lo + 1
    ∧ (∀ i, 0 <= i < VisibleDeviceCount d →
         Int.sub (numa_node d i) lo = numa_node d i - lo).
Proof.
  intros Honce Hwf Hall Hfit Hn Hrun.
  destruct (InspectNumaNodes_scan d s Honce Hwf Hall)
    as (s' & Hrun' & Honce' & Hwf' & _ & Hin & Htop).
  rewrite Hrun in Hrun'. injection Hrun' as <-.
  destruct (scan_topology d (topology s) Hn Hfit)
    as (lo & hi & Hf & Hlo & Hhi & Hcount & Hsub).
  exists lo, hi. rewrite Hf in Htop.
  split; [exact Hlo|]. split; [exact Hhi|]. split; [exact Htop|].
  split; [exact Honce'|]. split; [exact Hwf'|]. split; [exact Hin|].
  split; [exact Hcount|exact Hsub].
Qed.

(** When every ordinal of the list has a cached executor, the search loop
    leaves the state as it is. *)
Lemma first_on_bus_cached d bus ords : ∀ s,
  cache_wf s →
  (∀ i, i ∈ ords → is_Some (executor_cache_ (self s) !! device_key i)) →
  ∃ r, first_on_bus d bus ords s = Returns r s.
Proof.
  induction ords as [|i ords IH]; intros s Hwf Hin; simpl.
  - eexists. reflexivity.
  - unfold bind at 1. rewrite (DeviceToBus_cached d i s Hwf); [|apply Hin; left].
    destruct (_ =? bus).
    + destruct (Hin i) as [e He]; [left|]. exists (Value e).
      unfold bind. by rewrite ExecutorForDevice_unfold, (GetOrCreate_hit _ _ _ _ He).
    + apply IH; [exact Hwf|]. intros j Hj. apply Hin. by right.
Qed.

(** X6.  [DeviceToBus] does not run the scan.  On a platform object whose
    pair still holds the constructor's zeros it returns the bus id of the
    device as the driver reports it, and leaves the once-flag and the pair
    as they were. *)
Theorem DeviceToBus_without_discovery d i s :
  cache_wf s → obtainable d s i →
  min_numa_node_ (self s) = 0 → Int.in_range (numa_node d i) →
  ∃ s', DeviceToBus d i s = Returns (numa_node d i) s'
        ∧ once (proc s') = once (proc s) ∧ topology s' = topology s.
Proof.
  intros Hwf Hob Hmin Hrange.
  destruct (DeviceToBus_obtainable d i s Hwf Hob)
    as (s' & Hrun & _ & (Honce & _) & Htop & _).
  exists s'. rewrite Hrun, Hmin. unfold Int.sub.
  rewrite Z.sub_0_r, (wrap_in_range _ Hrange). done.
Qed.

Lemma uncached_agree s1 s ords :
  (∀ j, j ∈ ords →
     executor_cache_ (self s1) !! device_key j = executor_cache_ (self s) !! device_key j) →
  uncached s1 ords = uncached s ords.
Proof.
  unfold uncached. induction ords as [|j ords IH]; intros Hagree; [reflexivity|].
  rewrite !filter_cons, (Hagree j) by left.
  rewrite IH; [reflexivity|]. intros k Hk. apply Hagree. by right.
Qed.

Lemma inspect_device_log d i s s' :
  inspect_device d i s = Returns tt s' →
  init_log (proc s') = reverse (uncached s [i]) ++ init_log (proc s)
  ∧ ∀ cfg, cfg ≠ device_key i →
      executor_cache_ (self s') !! cfg = executor_cache_ (self s) !! cfg.
Proof.
  unfold inspect_device, bind, uncached. rewrite ExecutorForDevice_unfold.
  unfold ExecutorCache_GetOrCreate. rewrite filter_cons, filter_nil.
  destruct (executor_cache_ (self s) !! device_key i) as [e|] eqn:Hc.
  - rewrite decide_False by done. simpl.
    destruct (i =? 0); simpl; intros [= <-]; simpl; by split.
  - rewrite decide_True by done.
    unfold bind, GetUncachedExecutor.
    destruct (negb (ok _)); simpl; [discriminate|].
    destruct (i =? 0); simpl; intros [= <-]; simpl;
      (split; [reflexivity|]); intros cfg Hne; by apply lookup_insert_ne.
Qed.

Lemma scan_loop_log d ords : ∀ s s',
  NoDup ords →
  for_each (inspect_device d) ords s = Returns tt s' →
  init_log (proc s') = reverse (uncached s ords) ++ init_log (proc s).
Proof.
  induction ords as [|i ords IH]; intros s s' Hnd; simpl.
  - by intros [= <-].
  - apply NoDup_cons in Hnd as [Hi Hnd].
    unfold bind. destruct (inspect_device d i s) as [[] s1|f] eqn:Hstep; [|discriminate].
    intros Hrest. destruct (inspect_device_log d i s s1 Hstep) as [Hlog1 Hother].
    rewrite (IH s1 s' Hnd Hrest), Hlog1.
    rewrite (uncached_agree s1 s ords).
    + unfold uncached. rewrite (filter_cons _ i ords), filter_cons, filter_nil.
      case_decide; [|reflexivity].
      rewrite !reverse_cons, reverse_nil. simpl. by rewrite <- app_assoc.
    + intros j Hj. apply Hother. intros [= ->]. contradiction.
Qed.

(** X7.  Whenever the scan runs and [InspectNumaNodes] returns, the cache
    holds an executor for every visible device and every entry it held
    before; [Init] was invoked for exactly the devices that had no cached
    executor, once each, in ascending ordinal order. *)
Theorem scan_populates_cache d s s' :
  once (proc s) = false →
  InspectNumaNodes d s = Returns tt s' →
  (∀ i, 0 <= i < VisibleDeviceCount d →
     is_Some (executor_cache_ (self s') !! device_key i))
  ∧ executor_cache_ (self s) ⊆ executor_cache_ (self s')
  ∧ init_log (proc s') = reverse (uncached s (device_ordinals d)) ++ init_log (proc s).
Proof.
  intros Honce. unfold InspectNumaNodes, call_once. rewrite Honce.
  destruct (for_each _ _ s) as [[] s1|f] eqn:Hloop; [|discriminate].
  intros [= <-]. simpl.
  destruct (scan_loop_cached d _ s s1 Hloop) as [Hin Hsub].
  split; [|split; [exact Hsub|]].
  - intros i Hi. apply Hin. unfold device_ordinals. apply elem_of_seqZ. lia.
  - apply (scan_loop_log d _ s s1); [apply NoDup_seqZ|exact Hloop].
Qed.

(** X8.  After the scan, every visible device maps into the bus range:
    [0 <= DeviceToBus(i) < BusCount()], and [FirstExecutorForBus] of that
    bus returns an executor (never [NotFound], never a failed check) of a
    device on the same bus whose ordinal is at most [i]; none of these
    calls changes the state. *)
Theorem every_device_has_a_bus d s s1 i :
  once (proc s) = false → cache_wf s → all_obtainable d s → bus_ids_fit d →
  InspectNumaNodes d s = Returns tt s1 →
  0 <= i < VisibleDeviceCount d →
  ∃ b count e,
    DeviceToBus d i s1 = Returns b s1
    ∧ BusCount d s1 = Returns count s1
    ∧ 0 <= b < count
    ∧ FirstExecutorForBus d b s1 = Returns (Value e) s1
    ∧ 0 <= device_ordinal e <= i
    ∧ DeviceToBus d (device_ordinal e) s1 = Returns b s1.
Proof.
  intros Honce Hwf Hall Hfit Hrun Hi.
  assert (Hn : 0 < VisibleDeviceCount d) by lia.
  destruct (scanned_state d s s1 Honce Hwf Hall Hfit Hn Hrun)
    as (lo & hi & [_ Hlo] & [_ Hhi] & Htop & Honce1 & Hwf1 & Hin & Hcount & Hsub).
  injection Htop as Hmin Hlim.
  set (b := numa_node d i - lo).
  assert (Hb : Int.sub (numa_node d i) (min_numa_node_ (self s1)) = b)
    by (rewrite Hmin; by apply Hsub).
  assert (Hbc : BusCount d s1 = Returns (hi - lo + 1) s1)
    by (rewrite (BusCount_done d s1 Honce1), Hmin, Hlim; by rewrite Hcount).
  assert (Hbrange : 0 <= b < hi - lo + 1).
  { specialize (Hlo i Hi). specialize (Hhi i Hi). unfold b. lia. }
  destruct (first_on_bus_cached d b (device_ordinals d) s1 Hwf1) as [r0 Hsame].
  { intros j Hj. apply Hin. unfold device_ordinals in Hj.
    apply elem_of_seqZ in Hj. lia. }
  destruct (first_on_bus_range d b (Z.to_nat (VisibleDeviceCount d)) 0 s1 Hwf1)
    as (r & s' & Hsearch & _ & _ & _ & Hres).
  { intros j Hj. left. apply Hin. lia. }
  rewrite Z2Nat.id in Hsearch, Hres by lia.
  unfold device_ordinals in Hsame. rewrite Hsame in Hsearch.
  injection Hsearch as <- <-.
  destruct Hres as [(k & e & Hk & -> & Hord & _ & Hbus & Hbefore)|[_ Hnone]].
  - exists b, (hi - lo + 1), e.
    split; [by rewrite (DeviceToBus_cached d i s1 Hwf1 (Hin i Hi)), Hb|].
    split; [exact Hbc|]. split; [exact Hbrange|]. split.
    { rewrite (FirstExecutorForBus_unfold d b s1 _ s1 Hbc).
      destruct (Z.ltb_spec b (hi - lo + 1)); [exact Hsame|lia]. }
    rewrite Hord. split.
    + destruct (Z.le_gt_cases k i) as [?|Hgt]; [lia|].
      destruct (Hbefore i) as [_ Hne]; [lia|]. contradiction.
    + rewrite (DeviceToBus_cached d k s1 Hwf1); [by rewrite Hbus|].
      apply Hin. lia.
  - destruct (Hnone i) as [_ Hne]; [lia|]. contradiction.
Qed.

(** X9.  [CHECK_LT] bounds the bus ordinal from above only.  After the
    scan, a negative bus ordinal passes the check and, no device mapping
    below zero, [FirstExecutorForBus] returns the [NotFound] status
    "Executor for bus <n> not found." *)
Theorem FirstExecutorForBus_negative d s s1 bus :
  once (proc s) = false → topology s = (0, 0) →
  cache_wf s → all_obtainable d s → bus_ids_fit d →
  InspectNumaNodes d s = Returns tt s1 →
  bus < 0 →
  FirstExecutorForBus d bus s
  = Returns (Error (MkStatus kNotFound
                      ("Executor for bus " +:+ pretty bus +:+ " not found."))) s1.
Proof.
  intros Honce Hzero Hwf Hall Hfit Hrun Hbus.
  pose proof (BusCount_after_inspect d s s1 Hrun) as Hbc.
  rewrite (FirstExecutorForBus_unfold d bus s _ s1 Hbc).
  destruct (Z.le_gt_cases (VisibleDeviceCount d) 0) as [Hn|Hn].
  - destruct (InspectNumaNodes_scan d s Honce Hwf Hall)
      as (s' & Hrun' & _ & _ & _ & _ & Htop).
    rewrite Hrun in Hrun'. injection Hrun' as <-.
    unfold device_ordinals in *. rewrite seqZ_nil in * by lia.
    simpl in Htop. rewrite Hzero in Htop. injection Htop as -> ->.
    change (Int.sub 0 0) with 0.
    destruct (Z.ltb_spec bus 0); [reflexivity|lia].
  - destruct (scanned_state d s s1 Honce Hwf Hall Hfit Hn Hrun)
      as (lo & hi & [(il & Hil & Hlo') Hlo] & [_ Hhi] & Htop & _ & Hwf1 & Hin
          & Hcount & Hsub).
    injection Htop as Hmin Hlim. rewrite Hmin, Hlim, Hcount.
    pose proof (Hhi il Hil).
    destruct (Z.ltb_spec bus (hi - lo + 1)); [|lia].
    destruct (first_on_bus_cached d bus (device_ordinals d) s1 Hwf1) as [r0 Hsame].
    { intros j Hj. apply Hin. unfold device_ordinals in Hj.
      apply elem_of_seqZ in Hj. lia. }
    destruct (first_on_bus_range d bus (Z.to_nat (VisibleDeviceCount d)) 0 s1 Hwf1)
      as (r & s' & Hsearch & _ & _ & _ & Hres).
    { intros j Hj. left. apply Hin. lia. }
    rewrite Z2Nat.id in Hsearch, Hres by lia.
    rewrite Hsame. unfold device_ordinals in Hsame. rewrite Hsame in Hsearch.
    injection Hsearch as <- <-.
    destruct Hres as [(k & e & Hk & _ & _ & _ & Hkbus & _)|[-> _]]; [|reflexivity].
    rewrite Hmin, (Hsub k) in Hkbus by lia. specialize (Hlo k ltac:(lia)). lia.
Qed.

(** X10.  On a platform object that never scanned while the process-wide
    once-flag is already set, [BusCount()] is 0, so [FirstExecutorForBus]
    fails its check for every bus ordinal from 0 up, whatever devices the
    driver reports. *)
Theorem FirstExecutorForBus_unscanned_object d s bus :
  once (proc s) = true → topology s = (0, 0) →
  0 <= bus →
  BusCount d s = Returns 0 s
  ∧ FirstExecutorForBus d bus s
    = Aborts (CheckFailed "bus ordinal out of available range").
Proof.
  intros Honce [= Hmin Hlim] Hbus.
  assert (Hbc : BusCount d s = Returns 0 s)
    by (by rewrite (BusCount_done d s Honce), Hmin, Hlim).
  split; [exact Hbc|].
  rewrite (FirstExecutorForBus_unfold d bus s 0 s Hbc).
  destruct (Z.ltb_spec bus 0); [lia|reflexivity].
Qed.

(** X11.  With no visible device, the first bus query sets the once-flag
    and nothing else: no executor is constructed, the cache and the pair
    are untouched and [BusCount()] is 0; [FirstExecutorForBus] then fails
    its check on every bus ordinal from 0 up. *)
Theorem no_devices d s :
  VisibleDeviceCount d <= 0 → topology s = (0, 0) →
  ∃ s', BusCount d s = Returns 0 s'
        ∧ once (proc s') = true
        ∧ self s' = self s
        ∧ constructed (proc s') = constructed (proc s)
        ∧ init_log (proc s') = init_log (proc s)
        ∧ ∀ bus, 0 <= bus →
            FirstExecutorForBus d bus s
            = Aborts (CheckFailed "bus ordinal out of available range").
Proof.
  intros Hn [= Hmin Hlim].
  assert (Hrun : ∃ s', InspectNumaNodes d s = Returns tt s'
                       ∧ once (proc s') = true ∧ self s' = self s
                       ∧ constructed (proc s') = constructed (proc s)
                       ∧ init_log (proc s') = init_log (proc s)).
  { unfold InspectNumaNodes, call_once, device_ordinals.
    rewrite seqZ_nil by lia. simpl.
    destruct (once (proc s)) eqn:Honce; eexists; (split; [reflexivity|]); by simpl. }
  destruct Hrun as (s' & Hrun & Honce' & Hself & Hc & Hl).
  assert (Hbc : BusCount d s = Returns 0 s').
  { rewrite (BusCount_after_inspect d s s' Hrun), Hself, Hmin, Hlim. reflexivity. }
  exists s'. do 5 (split; [assumption|]). intros bus Hbus.
  rewrite (FirstExecutorForBus_unfold d bus s 0 s' Hbc).
  destruct (Z.ltb_spec bus 0); [lia|reflexivity].
Qed.

(** X12.  The pair computed by the scan depends only on the set of bus ids
    in use, not on the enumeration order or on how many devices share a
    bus: two populations with the same bus ids yield the same
    [{min_numa_node_, limit_numa_node_}] and the same [BusCount()]. *)
Theorem topology_depends_on_bus_ids_only d1 s1 s1' d2 s2 s2' :
  once (proc s1) = false → cache_wf s1 → all_obtainable d1 s1 → bus_ids_fit d1 →
  once (proc s2) = false → cache_wf s2 → all_obtainable d2 s2 → bus_ids_fit d2 →
  0 < VisibleDeviceCount d1 → 0 < VisibleDeviceCount d2 →
  (∀ i, 0 <= i < VisibleDeviceCount d1 →
     ∃ j, 0 <= j < VisibleDeviceCount d2 ∧ numa_node d2 j = numa_node d1 i) →
  (∀ j, 0 <= j < VisibleDeviceCount d2 →
     ∃ i, 0 <= i < VisibleDeviceCount d1 ∧ numa_node d1 i = numa_node d2 j) →
  InspectNumaNodes d1 s1 = Returns tt s1' →
  InspectNumaNodes d2 s2 = Returns tt s2' →
  topology s1' = topology s2'
  ∧ ∃ count, BusCount d1 s1' = Returns count s1'
             ∧ BusCount d2 s2' = Returns count s2'.
Proof.
  intros Ho1 Hwf1 Hall1 Hfit1 Ho2 Hwf2 Hall2 Hfit2 Hn1 Hn2 H12 H21 Hrun1 Hrun2.
  destruct (scanned_state d1 s1 s1' Ho1 Hwf1 Hall1 Hfit1 Hn1 Hrun1)
    as (lo1 & hi1 & [(a1 & Ha1 & Hlo1e) Hlo1] & [(b1 & Hb1 & Hhi1e) Hhi1]
        & Htop1 & Honce1 & _).
  destruct (scanned_state d2 s2 s2' Ho2 Hwf2 Hall2 Hfit2 Hn2 Hrun2)
    as (lo2 & hi2 & [(a2 & Ha2 & Hlo2e) Hlo2] & [(b2 & Hb2 & Hhi2e) Hhi2]
        & Htop2 & Honce2 & _).
  assert (Hlo : lo2 = lo1).
  { destruct (H12 a1 Ha1) as (j & Hj & Hje), (H21 a2 Ha2) as (i & Hi & Hie).
    specialize (Hlo2 j Hj). specialize (Hlo1 i Hi). lia. }
  assert (Hhi : hi2 = hi1).
  { destruct (H12 b1 Hb1) as (j & Hj & Hje), (H21 b2 Hb2) as (i & Hi & Hie).
    specialize (Hhi2 j Hj). specialize (Hhi1 i Hi). lia. }
  rewrite Hlo, Hhi in Htop2. split; [congruence|].
  injection Htop1 as Hmin1 Hlim1. injection Htop2 as Hmin2 Hlim2.
  exists (Int.sub (hi1 + 1) lo1).
  rewrite (BusCount_done d1 s1' Honce1), (BusCount_done d2 s2' Honce2).
  rewrite Hmin1, Hlim1, Hmin2, Hlim2. split; reflexivity.
Qed.

(** X13.  [DeviceToBus] returns an [int] and has no way to report a
    status: for a device that has no cached executor and whose [Init]
    fails it ends the process with the [Internal] status of
    [GetUncachedExecutor]. *)
Theorem DeviceToBus_unobtainable_aborts d i s :
  executor_cache_ (self s) !! device_key i = None →
  ok (Init d i DefaultDeviceOptions) = false →
  DeviceToBus d i s
  = Aborts (BadStatusOrAccess
              (MkStatus kInternal
                 (init_failure_message i (Init d i DefaultDeviceOptions)))).
Proof.
  intros Hmiss Hfail. unfold DeviceToBus, bind.
  by rewrite ExecutorForDevice_unfold, (GetOrCreate_failed d (device_key i) s Hmiss Hfail).
Qed.

(** ** The further properties at concrete populations *)

Lemma bus_ids_fit_driver_of_buses buses :
  Forall (λ b, -1000000000 <= b <= 1000000000) buses →
  bus_ids_fit (driver_of_buses buses).
Proof.
  intros Hall. apply bus_ids_fit_small. intros i Hi. simpl in *.
  destruct (lookup_lt_is_Some_2 buses (Z.to_nat i)) as [b Hb]; [lia|].
  rewrite Hb. simpl. by apply (Forall_lookup_1 _ _ _ _ Hall Hb).
Qed.

Lemma calls_only_extend_witness :
  name_ (self (after_calls (driver_of_buses [2; 0; 0])
                 [CallExecutorForDevice 1; CallBusCount; CallDeviceToBus 2]
                 (fresh process_start)))
  = "SYCL"
  ∧ init_log (proc (after_calls (driver_of_buses [2; 0; 0])
                      [CallExecutorForDevice 1; CallBusCount; CallDeviceToBus 2]
                      (fresh process_start)))
    = [2; 0; 1].
Proof.
  destruct (calls_only_extend (driver_of_buses [2; 0; 0])
              [CallExecutorForDevice 1; CallBusCount; CallDeviceToBus 2]
              (fresh process_start)
              (after_calls (driver_of_buses [2; 0; 0])
                 [CallExecutorForDevice 1; CallBusCount; CallDeviceToBus 2]
                 (fresh process_start)))
    as (Hname & _ & _ & _).
  - vm_compute. reflexivity.
  - split; [exact Hname|reflexivity].
Defined.

(** Device 1 is obtained, the scan runs, and the driver then starts
    failing on device 1. *)
Lemma ExecutorForDevice_stable_witness :
  ExecutorForDevice
    (driver_failing_at [2; 0; 0] 1 (MkStatus kUnavailable "device lost")) 1
    (after_calls (driver_of_buses [2; 0; 0]) [CallExecutorForDevice 1; CallBusCount]
       (fresh process_start))
  = Returns (Value (MkExecutor 1 DefaultDeviceOptions 0))
      (after_calls (driver_of_buses [2; 0; 0]) [CallExecutorForDevice 1; CallBusCount]
         (fresh process_start)).
Proof.
  apply (ExecutorForDevice_stable (driver_of_buses [2; 0; 0]) 1 (fresh process_start)
           (MkExecutor 1 DefaultDeviceOptions 0)
           (after_calls (driver_of_buses [2; 0; 0]) [CallExecutorForDevice 1]
              (fresh process_start))
           (driver_of_buses [2; 0; 0]) [CallBusCount]).
  - vm_compute. reflexivity.
  - vm_compute. reflexivity.
Defined.

Lemma ExecutorForDevice_retry_witness :
  ∃ s2,
    ExecutorForDevice (driver_of_buses [5; 7]) 1
      (MkState (MkProcess false 1 [1]) SyclPlatform_new)
    = Returns (Value (MkExecutor 1 DefaultDeviceOptions 1)) s2
    ∧ init_log (proc s2) = [1; 1]
    ∧ executor_cache_ (self s2) !! device_key 1
      = Some (MkExecutor 1 DefaultDeviceOptions 1).
Proof.
  apply (ExecutorForDevice_retry
           (driver_failing_at [5; 7] 1 (MkStatus kUnavailable "device lost")) 1
           (fresh process_start)
           (MkStatus kInternal
              "failed initializing StreamExecutor for CUDA device ordinal 1: UNAVAILABLE: device lost")
           (MkState (MkProcess false 1 [1]) SyclPlatform_new)
           (driver_of_buses [5; 7])).
  - vm_compute. reflexivity.
  - reflexivity.
Defined.


Lemma Name_is_SYCL_witness :
  Name (after_calls (driver_of_buses [2; 0; 0])
          [CallBusCount; CallFirstExecutorForBus 0] (fresh process_start))
  = Returns "SYCL"
      (after_calls (driver_of_buses [2; 0; 0])
         [CallBusCount; CallFirstExecutorForBus 0] (fresh process_start)).
Proof.
  apply (Name_is_SYCL process_start (driver_of_buses [2; 0; 0])
           [CallBusCount; CallFirstExecutorForBus 0]).
  vm_compute. reflexivity.
Defined.

Lemma DeviceToBus_without_discovery_witness :
  ∃ s', DeviceToBus (driver_of_buses [5; 7]) 1 (fresh process_start) = Returns 7 s'
        ∧ once (proc s') = false ∧ topology s' = (0, 0).
Proof.
  apply (DeviceToBus_without_discovery (driver_of_buses [5; 7]) 1 (fresh process_start)).
  - apply cache_wf_fresh.
  - right. reflexivity.
  - reflexivity.
  - unfold Int.in_range, Int.min_value, Int.max_value. simpl. lia.
Defined.

(** Device 1 already has an executor when the scan runs. *)
Lemma scan_populates_cache_witness :
  init_log
    (proc (after_inspect (driver_of_buses [2; 0; 0])
             (after_calls (driver_of_buses [2; 0; 0]) [CallExecutorForDevice 1]
                (fresh process_start))))
  = reverse [0; 2] ++ [1].
Proof.
  destruct (scan_populates_cache (driver_of_buses [2; 0; 0])
              (after_calls (driver_of_buses [2; 0; 0]) [CallExecutorForDevice 1]
                 (fresh process_start))
              (after_inspect (driver_of_buses [2; 0; 0])
                 (after_calls (driver_of_buses [2; 0; 0]) [CallExecutorForDevice 1]
                    (fresh process_start))))
    as (_ & _ & Hlog).
  - reflexivity.
  - vm_compute. reflexivity.
  - rewrite Hlog. reflexivity.
Defined.

(** Buses 5, 7, 6, 7: device 3 is on bus 2, first served by device 1. *)
Lemma every_device_has_a_bus_witness :
  ∃ b count e,
    DeviceToBus (driver_of_buses [5; 7; 6; 7]) 3
      (after_inspect (driver_of_buses [5; 7; 6; 7]) (fresh process_start))
    = Returns b (after_inspect (driver_of_buses [5; 7; 6; 7]) (fresh process_start))
    ∧ BusCount (driver_of_buses [5; 7; 6; 7])
        (after_inspect (driver_of_buses [5; 7; 6; 7]) (fresh process_start))
      = Returns count (after_inspect (driver_of_buses [5; 7; 6; 7]) (fresh process_start))
    ∧ 0 <= b < count
    ∧ FirstExecutorForBus (driver_of_buses [5; 7; 6; 7]) b
        (after_inspect (driver_of_buses [5; 7; 6; 7]) (fresh process_start))
      = Returns (Value e)
          (after_inspect (driver_of_buses [5; 7; 6; 7]) (fresh process_start))
    ∧ 0 <= device_ordinal e <= 3
    ∧ DeviceToBus (driver_of_buses [5; 7; 6; 7]) (device_ordinal e)
        (after_inspect (driver_of_buses [5; 7; 6; 7]) (fresh process_start))
      = Returns b (after_inspect (driver_of_buses [5; 7; 6; 7]) (fresh process_start)).
Proof.
  apply (every_device_has_a_bus (driver_of_buses [5; 7; 6; 7]) (fresh process_start)).
  - reflexivity.
  - apply cache_wf_fresh.
  - apply all_obtainable_init_ok. reflexivity.
  - apply bus_ids_fit_driver_of_buses. repeat constructor; lia.
  - vm_compute. reflexivity.
  - simpl. lia.
Defined.

Lemma FirstExecutorForBus_negative_witness :
  FirstExecutorForBus (driver_of_buses [2; 0; 0]) (-1) (fresh process_start)
  = Returns (Error (MkStatus kNotFound "Executor for bus -1 not found."))
      (after_inspect (driver_of_buses [2; 0; 0]) (fresh process_start)).
Proof.
  apply (FirstExecutorForBus_negative (driver_of_buses [2; 0; 0]) (fresh process_start)).
  - reflexivity.
  - reflexivity.
  - apply cache_wf_fresh.
  - apply all_obtainable_init_ok. reflexivity.
  - apply bus_ids_fit_driver_of_buses. repeat constructor; lia.
  - vm_compute. reflexivity.
  - lia.
Defined.

Lemma FirstExecutorForBus_unscanned_object_witness :
  BusCount (driver_of_buses [2; 0; 0]) (fresh (MkProcess true 3 [2; 1; 0]))
  = Returns 0 (fresh (MkProcess true 3 [2; 1; 0]))
  ∧ FirstExecutorForBus (driver_of_buses [2; 0; 0]) 0
      (fresh (MkProcess true 3 [2; 1; 0]))
    = Aborts (CheckFailed "bus ordinal out of available range").
Proof.
  apply (FirstExecutorForBus_unscanned_object (driver_of_buses [2; 0; 0])
           (fresh (MkProcess true 3 [2; 1; 0])) 0).
  - reflexivity.
  - reflexivity.
  - lia.
Defined.

Lemma no_devices_witness :
  ∃ s', BusCount (driver_of_buses []) (fresh process_start) = Returns 0 s'
        ∧ once (proc s') = true
        ∧ self s' = self (fresh process_start)
        ∧ constructed (proc s') = constructed (proc (fresh process_start))
        ∧ init_log (proc s') = init_log (proc (fresh process_start))
        ∧ ∀ bus, 0 <= bus →
            FirstExecutorForBus (driver_of_buses []) bus (fresh process_start)
            = Aborts (CheckFailed "bus ordinal out of available range").
Proof.
  apply (no_devices (driver_of_buses []) (fresh process_start)).
  - simpl. lia.
  - reflexivity.
Defined.

(** Buses 2, 0, 0 against buses 0, 2. *)
Lemma topology_depends_on_bus_ids_only_witness :
  topology (after_inspect (driver_of_buses [2; 0; 0]) (fresh process_start))
  = topology (after_inspect (driver_of_buses [0; 2]) (fresh process_start)).
Proof.
  apply (topology_depends_on_bus_ids_only
           (driver_of_buses [2; 0; 0]) (fresh process_start)
           (after_inspect (driver_of_buses [2; 0; 0]) (fresh process_start))
           (driver_of_buses [0; 2]) (fresh process_start)
           (after_inspect (driver_of_buses [0; 2]) (fresh process_start))).
  - reflexivity.
  - apply cache_wf_fresh.
  - apply all_obtainable_init_ok. reflexivity.
  - apply bus_ids_fit_driver_of_buses. repeat constructor; lia.
  - reflexivity.
  - apply cache_wf_fresh.
  - apply all_obtainable_init_ok. reflexivity.
  - apply bus_ids_fit_driver_of_buses. repeat constructor; lia.
  - simpl. lia.
  - simpl. lia.
  - intros i Hi. simpl in Hi.
    assert (i = 0 ∨ i = 1 ∨ i = 2) as [-> | [-> | ->]] by lia;
      [exists 1|exists 0|exists 0]; simpl; split; (lia || reflexivity).
  - intros j Hj. simpl in Hj.
    assert (j = 0 ∨ j = 1) as [-> | ->] by lia;
      [exists 1|exists 0]; simpl; split; (lia || reflexivity).
  - vm_compute. reflexivity.
  - vm_compute. reflexivity.
Defined.

Lemma DeviceToBus_unobtainable_aborts_witness :
  DeviceToBus (driver_failing_at [5; 7] 1 (MkStatus kUnavailable "device lost")) 1
    (fresh process_start)
  = Aborts (BadStatusOrAccess (MkStatus kInternal
      "failed initializing StreamExecutor for CUDA device ordinal 1: UNAVAILABLE: device lost")).
Proof.
  apply (DeviceToBus_unobtainable_aborts
           (driver_failing_at [5; 7] 1 (MkStatus kUnavailable "device lost")) 1
           (fresh process_start)).
  - reflexivity.
  - reflexivity.
Defined.
